(** * Turbine: the functional core (types, evolve, decide)

    A shallow embedding of [src/core/types.ts], [src/core/evolve.ts] and
    [src/core/decide.ts], with the pure steps around them:
    [resultToEvents] of [src/shell/interpreter.ts], the conditions and the
    event mapping of [src/orchestrator.ts], the snapshot policy of
    [src/persistence/event-log.ts] and the log buffer of
    [src/shell/telemetry.ts].

    Conventions of the embedding:
    - a JavaScript [number] whose schema is [z.number().int()] is a [Z];
      integer arithmetic on [Z] is the arithmetic of the code as long as
      the values stay within [-2^53, 2^53], and the one place where a
      property depends on larger values, the increment of [usedTurns],
      rounds as the code does ([numberAdd]);
    - every other [number] (coverage, scores, metric values) is an exact
      rational [Q], compared with [==]: this is the exact reading of the
      arithmetic, which the code carries out in binary64.  The properties
      stated on it are those that rounding does not change; the binary64
      computation itself is [calculateOverallConfidence_binary64];
    - a [Date] is its epoch time in milliseconds, a [Z];
    - a string is the sequence of its UTF-16 code units, here restricted to
      code units below 256, one [ascii] each, so that [length] and
      [substring] count what [.length] and [.slice] count; an optional
      field is an [option];
    - an object spread [{ ...x, f: v }] is written out as the record
      with every other field copied from [x];
    - [uuid()], [new Date()] and the host's [toFixed], which [decide]
      takes from outside its arguments, are fields of an explicit
      [Ambient.t] argument. *)

From Stdlib Require Import ZArith QArith Qminmax Qround Qabs.
From Stdlib Require Import String Ascii List Bool Lia DecimalString.
From Stdlib Require Import Lqa.
From Stdlib Require Import Floats.
Import ListNotations.

Open Scope string_scope.
Open Scope Z_scope.

(* ------------------------------------------------------------------ *)
(** ** Phases *)

Inductive Phase : Type :=
  | requirements
  | design
  | implementation
  | testing
  | documentation
  | verification.

Definition PHASE_ORDER : list Phase :=
  [requirements; design; implementation; testing; documentation; verification].

Definition Phase_eqb (p q : Phase) : bool :=
  match p, q with
  | requirements, requirements
  | design, design
  | implementation, implementation
  | testing, testing
  | documentation, documentation
  | verification, verification => true
  | _, _ => false
  end.

(** The string a phase is at run time. *)
Definition phaseName (p : Phase) : string :=
  match p with
  | requirements => "requirements"
  | design => "design"
  | implementation => "implementation"
  | testing => "testing"
  | documentation => "documentation"
  | verification => "verification"
  end.

(** [Array.prototype.indexOf]: the first position, or [-1]. *)
Fixpoint indexOfFrom (i : Z) (l : list Phase) (p : Phase) : Z :=
  match l with
  | [] => -1
  | q :: l' => if Phase_eqb q p then i else indexOfFrom (i + 1) l' p
  end.

Definition indexOf (l : list Phase) (p : Phase) : Z := indexOfFrom 0 l p.

(** [arr[i]]: [undefined] outside the array. *)
Definition at_index {A : Type} (l : list A) (i : Z) : option A :=
  if i <? 0 then None else nth_error l (Z.to_nat i).

(** [a ?? b]. *)
Definition nullish {A : Type} (a : option A) (b : A) : A :=
  match a with Some x => x | None => b end.

Definition Date : Type := Z.

(* ------------------------------------------------------------------ *)
(** ** Domain entities *)

Module ChecklistItem.
Record t : Type := mk {
  id : string;
  phase : Phase;
  description : string;
  completed : bool;
  evidence : option string;
  completedAt : option Date
}.
End ChecklistItem.

Module Artifact.
Record t : Type := mk {
  id : string;
  path : string;
  hash : string;
  phase : Phase;
  createdAt : Date;
  updatedAt : Date
}.
End Artifact.

Module TurnBudget.
Record t : Type := mk {
  phase : Phase;
  maxTurns : Z;
  usedTurns : Z
}.
End TurnBudget.

Module TestResult.
Record t : Type := mk {
  passed : bool;
  totalTests : Z;
  passedTests : Z;
  failedTests : Z;
  coverage : option Q;
  failures : list (string * string)   (* testName, error *)
}.
End TestResult.

(** A value of type [unknown], as far as its truthiness and its being a
    string can be told: a tool input is a [Record<string, unknown>], and the
    cast to [{ path?: string; content?: string }] checks nothing at run
    time.  [UnknownObject] stands for every object, array, function or
    symbol. *)
Inductive Unknown : Type :=
  | UnknownUndefined
  | UnknownNull
  | UnknownBoolean (b : bool)
  | UnknownNumber (q : Q)
  | UnknownNaN
  | UnknownBigInt (n : Z)
  | UnknownString (s : string)
  | UnknownObject.

(** Truthiness: what [if (v)] and [v && w] test. *)
Definition isTruthy (v : Unknown) : bool :=
  match v with
  | UnknownUndefined | UnknownNull | UnknownNaN => false
  | UnknownBoolean b => b
  | UnknownNumber q => negb (Qeq_bool q 0)
  | UnknownBigInt n => negb (n =? 0)
  | UnknownString s => negb (String.eqb s "")
  | UnknownObject => true
  end.

(** [record[key]]: [undefined] when the record has no such key. *)
Fixpoint getProperty (record : list (string * Unknown)) (key : string)
    : Unknown :=
  match record with
  | [] => UnknownUndefined
  | (k, v) :: rest => if String.eqb k key then v else getProperty rest key
  end.

Module ToolUse.
Record t : Type := mk {
  tool : string;
  input : list (string * Unknown);
  result : Unknown
}.
End ToolUse.

Module LLMResponse.
Record t : Type := mk {
  content : string;
  toolUses : list ToolUse.t;
  tokensUsed : Z
}.
End LLMResponse.

Module CheckpointSummary.
Record t : Type := mk {
  id : string;
  phase : Phase;
  turn : Z;
  checklistProgress_completed : Z;
  checklistProgress_total : Z;
  artifactCount : Z;
  confidence : Q;
  createdAt : Date
}.
End CheckpointSummary.

Module Confidence.
Record t : Type := mk {
  typesSafe : bool;
  schemaValid : bool;
  testsPass : bool;
  coverage : Q;
  checklistComplete : bool;
  overallScore : Q
}.
End Confidence.

Module State.
Record t : Type := mk {
  phase : Phase;
  turn : Z;
  prompt : string;
  checklist : list ChecklistItem.t;
  artifacts : list Artifact.t;
  budgets : list TurnBudget.t;
  confidence : Confidence.t;
  pendingCheckpoint : option CheckpointSummary.t;
  lastApprovedCheckpoint : option CheckpointSummary.t;
  convergenceStreak : Z;
  converged : bool;
  startedAt : Date;
  lastActivityAt : Date
}.
End State.

(* ------------------------------------------------------------------ *)
(** ** Commands, events, effects *)

Module Command.
Inductive t : Type :=
  | Initialize (prompt : string) (budgets : option (list TurnBudget.t))
  | AdvancePhase
  | StartTurn
  | ProcessLLMResponse (response : LLMResponse.t)
  | RecordArtifact (path hash : string)
  | RecordTestResult (result : TestResult.t)
  | RecordTypeCheck (passed : bool) (errors : option (list string))
  | CompleteChecklistItem (itemId evidence : string)
  | RequestCheckpoint
  | ApproveCheckpoint
  | RejectCheckpoint (reason : string)
  | Timeout (phase : Phase)
  | Error (message : string) (recoverable : bool).
End Command.

Module Event.
Inductive t : Type :=
  | Initialized (prompt : string) (checklist : list ChecklistItem.t)
      (budgets : list TurnBudget.t) (timestamp : Date)
  | PhaseStarted (phase : Phase) (budget : TurnBudget.t) (timestamp : Date)
  | PhaseCompleted (phase : Phase) (turnsUsed : Z) (timestamp : Date)
  | TurnStarted (turn : Z) (phase : Phase) (timestamp : Date)
  | TurnCompleted (turn : Z) (phase : Phase) (tokensUsed : Z)
      (timestamp : Date)
  | ArtifactCreated (artifact : Artifact.t) (timestamp : Date)
  | ArtifactUpdated (artifactId newHash : string) (timestamp : Date)
  | ChecklistItemCompleted (itemId evidence : string) (timestamp : Date)
  | TestsPassed (result : TestResult.t) (timestamp : Date)
  | TestsFailed (result : TestResult.t) (timestamp : Date)
  | TypeCheckPassed (timestamp : Date)
  | TypeCheckFailed (errors : list string) (timestamp : Date)
  | ConfidenceUpdated (confidence : Confidence.t) (timestamp : Date)
  | CheckpointCreated (summary : CheckpointSummary.t) (timestamp : Date)
  | CheckpointApproved (checkpointId : string) (timestamp : Date)
  | CheckpointRejected (checkpointId reason : string) (timestamp : Date)
  | ConvergenceReached (finalConfidence : Q) (totalTurns : Z)
      (timestamp : Date)
  | BudgetExhausted (phase : Phase) (turnsUsed : Z) (timestamp : Date)
  | ErrorOccurred (message : string) (recoverable : bool)
      (timestamp : Date).

(** [event.kind], the discriminant. *)
Definition kind (e : t) : string :=
  match e with
  | Initialized _ _ _ _ => "Initialized"
  | PhaseStarted _ _ _ => "PhaseStarted"
  | PhaseCompleted _ _ _ => "PhaseCompleted"
  | TurnStarted _ _ _ => "TurnStarted"
  | TurnCompleted _ _ _ _ => "TurnCompleted"
  | ArtifactCreated _ _ => "ArtifactCreated"
  | ArtifactUpdated _ _ _ => "ArtifactUpdated"
  | ChecklistItemCompleted _ _ _ => "ChecklistItemCompleted"
  | TestsPassed _ _ => "TestsPassed"
  | TestsFailed _ _ => "TestsFailed"
  | TypeCheckPassed _ => "TypeCheckPassed"
  | TypeCheckFailed _ _ => "TypeCheckFailed"
  | ConfidenceUpdated _ _ => "ConfidenceUpdated"
  | CheckpointCreated _ _ => "CheckpointCreated"
  | CheckpointApproved _ _ => "CheckpointApproved"
  | CheckpointRejected _ _ _ => "CheckpointRejected"
  | ConvergenceReached _ _ _ => "ConvergenceReached"
  | BudgetExhausted _ _ _ => "BudgetExhausted"
  | ErrorOccurred _ _ _ => "ErrorOccurred"
  end.

(** [event.timestamp]: every variant carries one. *)
Definition timestamp (e : t) : Date :=
  match e with
  | Initialized _ _ _ ts
  | PhaseStarted _ _ ts
  | PhaseCompleted _ _ ts
  | TurnStarted _ _ ts
  | TurnCompleted _ _ _ ts
  | ArtifactCreated _ ts
  | ArtifactUpdated _ _ ts
  | ChecklistItemCompleted _ _ ts
  | TestsPassed _ ts
  | TestsFailed _ ts
  | TypeCheckPassed ts
  | TypeCheckFailed _ ts
  | ConfidenceUpdated _ ts
  | CheckpointCreated _ ts
  | CheckpointApproved _ ts
  | CheckpointRejected _ _ ts
  | ConvergenceReached _ _ ts
  | BudgetExhausted _ _ ts
  | ErrorOccurred _ _ ts => ts
  end.
End Event.

(** The values that appear in a log context or in span attributes
    ([Record<string, unknown>]). *)
Inductive JsValue : Type :=
  | JsUndefined
  | JsBoolean (b : bool)
  | JsNumber (q : Q)
  | JsString (s : string)
  | JsStrings (l : list string)
  | JsSummary (c : CheckpointSummary.t).

Definition Context : Type := list (string * JsValue).
Definition Tags : Type := list (string * string).

Inductive LogLevel : Type := debug | info | warn | error.
Inductive SpanStatus : Type := ok | span_error.

Module Effect.
Inductive t : Type :=
  | InvokeLLM (prompt : string) (systemPrompt : option string)
      (maxTokens : Z) (temperature : option Q)
  | WriteFile (path content : Unknown)
  | ReadFile (path : string)
  | DeleteFile (path : string)
  | ListDirectory (path : string) (recursive : option bool)
  | RunTests (pattern : option string) (coverage : option bool)
  | CheckTypes
  | ValidateSchema (schemaPath dataPath : string)
  | StartSpan (name : string) (attributes : Context)
  | EndSpan (spanId : string) (status : SpanStatus) (error : option string)
  | RecordMetric (name : string) (value : Q) (tags : Tags)
  | Log (level : LogLevel) (message : string) (context : Context)
  | EmitCheckpoint (summary : CheckpointSummary.t)
  | WaitForApproval (checkpointId : string) (timeoutMs : Z)
  | PersistEvent (event : Event.t)
  | CreateSnapshot (state : State.t) (atEventIndex : Z).
End Effect.

(* ------------------------------------------------------------------ *)
(** ** Initial state, confidence, convergence ([types.ts]) *)

Definition getDefaultBudget (phase : Phase) : Z :=
  match phase with
  | requirements => 50
  | design => 100
  | implementation => 500
  | testing => 200
  | documentation => 100
  | verification => 50
  end.

(** [createInitialState]; [now] stands for the two [new Date()] reads. *)
Definition createInitialState (now : Date) (prompt : string) : State.t :=
  {| State.phase := requirements;
     State.turn := 0;
     State.prompt := prompt;
     State.checklist := [];
     State.artifacts := [];
     State.budgets :=
       map (fun phase =>
              {| TurnBudget.phase := phase;
                 TurnBudget.maxTurns := getDefaultBudget phase;
                 TurnBudget.usedTurns := 0 |}) PHASE_ORDER;
     State.confidence :=
       {| Confidence.typesSafe := false;
          Confidence.schemaValid := false;
          Confidence.testsPass := false;
          Confidence.coverage := 0;
          Confidence.checklistComplete := false;
          Confidence.overallScore := 0 |};
     State.pendingCheckpoint := None;
     State.lastApprovedCheckpoint := None;
     State.convergenceStreak := 0;
     State.converged := false;
     State.startedAt := now;
     State.lastActivityAt := now |}.

Definition calculateOverallConfidence (confidence : Confidence.t) : Q :=
  if negb (Confidence.typesSafe confidence) then 0%Q
  else if negb (Confidence.schemaValid confidence) then 0%Q
  else if negb (Confidence.testsPass confidence) then 0.3%Q
  else
    let coverageScore :=
      (Qmin (Confidence.coverage confidence / 80) 1 * 0.25)%Q in
    let checklistScore :=
      if Confidence.checklistComplete confidence then 0.25%Q else 0%Q in
    let baseScore := 0.5%Q in
    (baseScore + coverageScore + checklistScore)%Q.

(** The same function as the code evaluates it, in binary64: the record
    with [number] fields as doubles, [Math.min], and every division,
    multiplication and addition rounded. *)
Module Confidence64.
Record t : Type := mk {
  typesSafe : bool;
  schemaValid : bool;
  testsPass : bool;
  coverage : float;
  checklistComplete : bool;
  overallScore : float
}.
End Confidence64.


#[local] Set Warnings "-inexact-float".


#[local] Set Warnings "+inexact-float".






Definition CONVERGENCE_THRESHOLD : Q := 0.9%Q.
Definition CONVERGENCE_STREAK_REQUIRED : Z := 3.

Definition hasConverged (state : State.t) : bool :=
  Qle_bool CONVERGENCE_THRESHOLD
           (Confidence.overallScore (State.confidence state))
  && (CONVERGENCE_STREAK_REQUIRED <=? State.convergenceStreak state).

(** The pattern of every handler that recomputes the score:
    [c.overallScore = calculateOverallConfidence(c)]. *)
Definition rescore (c : Confidence.t) : Confidence.t :=
  {| Confidence.typesSafe := Confidence.typesSafe c;
     Confidence.schemaValid := Confidence.schemaValid c;
     Confidence.testsPass := Confidence.testsPass c;
     Confidence.coverage := Confidence.coverage c;
     Confidence.checklistComplete := Confidence.checklistComplete c;
     Confidence.overallScore := calculateOverallConfidence c |}.

(* ------------------------------------------------------------------ *)
(** ** The evolver ([evolve.ts]) *)

Definition evolveInitialized (state : State.t) (prompt : string)
    (checklist : list ChecklistItem.t) (budgets : list TurnBudget.t)
    (timestamp : Date) : State.t :=
  {| State.phase := requirements;
     State.turn := 0;
     State.prompt := prompt;
     State.checklist := checklist;
     State.artifacts := State.artifacts state;
     State.budgets := budgets;
     State.confidence := State.confidence state;
     State.pendingCheckpoint := State.pendingCheckpoint state;
     State.lastApprovedCheckpoint := State.lastApprovedCheckpoint state;
     State.convergenceStreak := State.convergenceStreak state;
     State.converged := State.converged state;
     State.startedAt := timestamp;
     State.lastActivityAt := timestamp |}.

(** The shape shared by the handlers that touch [phase], [budgets] and
    [lastActivityAt] only. *)
Definition withPhaseBudgets (state : State.t) (phase : Phase)
    (budgets : list TurnBudget.t) (timestamp : Date) : State.t :=
  {| State.phase := phase;
     State.turn := State.turn state;
     State.prompt := State.prompt state;
     State.checklist := State.checklist state;
     State.artifacts := State.artifacts state;
     State.budgets := budgets;
     State.confidence := State.confidence state;
     State.pendingCheckpoint := State.pendingCheckpoint state;
     State.lastApprovedCheckpoint := State.lastApprovedCheckpoint state;
     State.convergenceStreak := State.convergenceStreak state;
     State.converged := State.converged state;
     State.startedAt := State.startedAt state;
     State.lastActivityAt := timestamp |}.

(** [{ ...b, usedTurns: n }]. *)
Definition setUsedTurns (b : TurnBudget.t) (n : Z) : TurnBudget.t :=
  {| TurnBudget.phase := TurnBudget.phase b;
     TurnBudget.maxTurns := TurnBudget.maxTurns b;
     TurnBudget.usedTurns := n |}.

Definition evolvePhaseStarted (state : State.t) (phase : Phase)
    (budget : TurnBudget.t) (timestamp : Date) : State.t :=
  let updatedBudgets :=
    map (fun b => if Phase_eqb (TurnBudget.phase b) phase then budget else b)
        (State.budgets state) in
  withPhaseBudgets state phase updatedBudgets timestamp.

Definition evolvePhaseCompleted (state : State.t) (phase : Phase)
    (turnsUsed : Z) (timestamp : Date) : State.t :=
  let updatedBudgets :=
    map (fun b => if Phase_eqb (TurnBudget.phase b) phase
                  then setUsedTurns b turnsUsed else b)
        (State.budgets state) in
  let currentIndex := indexOf PHASE_ORDER phase in
  let nextPhase := nullish (at_index PHASE_ORDER (currentIndex + 1)) phase in
  withPhaseBudgets state nextPhase updatedBudgets timestamp.

Definition evolveTurnStarted (state : State.t) (turn : Z)
    (timestamp : Date) : State.t :=
  {| State.phase := State.phase state;
     State.turn := turn;
     State.prompt := State.prompt state;
     State.checklist := State.checklist state;
     State.artifacts := State.artifacts state;
     State.budgets := State.budgets state;
     State.confidence := State.confidence state;
     State.pendingCheckpoint := State.pendingCheckpoint state;
     State.lastApprovedCheckpoint := State.lastApprovedCheckpoint state;
     State.convergenceStreak := State.convergenceStreak state;
     State.converged := State.converged state;
     State.startedAt := State.startedAt state;
     State.lastActivityAt := timestamp |}.

(** The double nearest to an integer, ties to the even significand: the
    integer itself up to [2^53] in magnitude, and beyond that a multiple of
    the power of two that leaves 53 significant bits (magnitudes below
    [2^1024]). *)
Definition roundToDouble (n : Z) : Z :=
  let a := Z.abs n in
  if a <=? 2 ^ 53 then n
  else
    let e := Z.log2 a - 52 in
    let q := a / 2 ^ e in
    let r := a mod 2 ^ e in
    let half := 2 ^ (e - 1) in
    let q' := if r <? half then q
              else if half <? r then q + 1
              else if Z.even q then q else q + 1 in
    Z.sgn n * (q' * 2 ^ e).

(** [a + b] on numbers that hold integers: the exact sum, rounded. *)
Definition numberAdd (a b : Z) : Z := roundToDouble (a + b).

Definition evolveTurnCompleted (state : State.t) (phase : Phase)
    (timestamp : Date) : State.t :=
  let updatedBudgets :=
    map (fun b => if Phase_eqb (TurnBudget.phase b) phase
                  then setUsedTurns b (numberAdd (TurnBudget.usedTurns b) 1)
                  else b)
        (State.budgets state) in
  withPhaseBudgets state (State.phase state) updatedBudgets timestamp.

Definition withArtifacts (state : State.t) (artifacts : list Artifact.t)
    (timestamp : Date) : State.t :=
  {| State.phase := State.phase state;
     State.turn := State.turn state;
     State.prompt := State.prompt state;
     State.checklist := State.checklist state;
     State.artifacts := artifacts;
     State.budgets := State.budgets state;
     State.confidence := State.confidence state;
     State.pendingCheckpoint := State.pendingCheckpoint state;
     State.lastApprovedCheckpoint := State.lastApprovedCheckpoint state;
     State.convergenceStreak := State.convergenceStreak state;
     State.converged := State.converged state;
     State.startedAt := State.startedAt state;
     State.lastActivityAt := timestamp |}.

Definition evolveArtifactCreated (state : State.t) (artifact : Artifact.t)
    (timestamp : Date) : State.t :=
  withArtifacts state (State.artifacts state ++ [artifact]) timestamp.

Definition evolveArtifactUpdated (state : State.t)
    (artifactId newHash : string) (timestamp : Date) : State.t :=
  let updatedArtifacts :=
    map (fun a =>
           if String.eqb (Artifact.id a) artifactId
           then {| Artifact.id := Artifact.id a;
                   Artifact.path := Artifact.path a;
                   Artifact.hash := newHash;
                   Artifact.phase := Artifact.phase a;
                   Artifact.createdAt := Artifact.createdAt a;
                   Artifact.updatedAt := timestamp |}
           else a)
        (State.artifacts state) in
  withArtifacts state updatedArtifacts timestamp.

(** The shape shared by the handlers that touch the convergence fields:
    [confidence], [convergenceStreak], [converged], [lastActivityAt]. *)
Definition withConfidence (state : State.t) (confidence : Confidence.t)
    (convergenceStreak : Z) (converged : bool) (timestamp : Date) : State.t :=
  {| State.phase := State.phase state;
     State.turn := State.turn state;
     State.prompt := State.prompt state;
     State.checklist := State.checklist state;
     State.artifacts := State.artifacts state;
     State.budgets := State.budgets state;
     State.confidence := confidence;
     State.pendingCheckpoint := State.pendingCheckpoint state;
     State.lastApprovedCheckpoint := State.lastApprovedCheckpoint state;
     State.convergenceStreak := convergenceStreak;
     State.converged := converged;
     State.startedAt := State.startedAt state;
     State.lastActivityAt := timestamp |}.

Definition evolveChecklistItemCompleted (state : State.t)
    (itemId evidence : string) (timestamp : Date) : State.t :=
  let updatedChecklist :=
    map (fun item =>
           if String.eqb (ChecklistItem.id item) itemId
           then {| ChecklistItem.id := ChecklistItem.id item;
                   ChecklistItem.phase := ChecklistItem.phase item;
                   ChecklistItem.description := ChecklistItem.description item;
                   ChecklistItem.completed := true;
                   ChecklistItem.evidence := Some evidence;
                   ChecklistItem.completedAt := Some timestamp |}
           else item)
        (State.checklist state) in
  let checklistComplete := forallb ChecklistItem.completed updatedChecklist in
  let c := State.confidence state in
  let updatedConfidence :=
    rescore {| Confidence.typesSafe := Confidence.typesSafe c;
               Confidence.schemaValid := Confidence.schemaValid c;
               Confidence.testsPass := Confidence.testsPass c;
               Confidence.coverage := Confidence.coverage c;
               Confidence.checklistComplete := checklistComplete;
               Confidence.overallScore := Confidence.overallScore c |} in
  {| State.phase := State.phase state;
     State.turn := State.turn state;
     State.prompt := State.prompt state;
     State.checklist := updatedChecklist;
     State.artifacts := State.artifacts state;
     State.budgets := State.budgets state;
     State.confidence := updatedConfidence;
     State.pendingCheckpoint := State.pendingCheckpoint state;
     State.lastApprovedCheckpoint := State.lastApprovedCheckpoint state;
     State.convergenceStreak := State.convergenceStreak state;
     State.converged := State.converged state;
     State.startedAt := State.startedAt state;
     State.lastActivityAt := timestamp |}.

(** [{ ...state.confidence, testsPass, coverage: result.coverage ??
    state.confidence.coverage }], then the score is recomputed. *)
Definition confidenceAfterTests (state : State.t) (testsPass : bool)
    (result : TestResult.t) : Confidence.t :=
  let c := State.confidence state in
  rescore {| Confidence.typesSafe := Confidence.typesSafe c;
             Confidence.schemaValid := Confidence.schemaValid c;
             Confidence.testsPass := testsPass;
             Confidence.coverage :=
               nullish (TestResult.coverage result) (Confidence.coverage c);
             Confidence.checklistComplete := Confidence.checklistComplete c;
             Confidence.overallScore := Confidence.overallScore c |}.

Definition evolveTestsPassed (state : State.t) (result : TestResult.t)
    (timestamp : Date) : State.t :=
  let updatedConfidence := confidenceAfterTests state true result in
  let newStreak := State.convergenceStreak state + 1 in
  withConfidence state updatedConfidence newStreak
    (hasConverged
       (withConfidence state updatedConfidence newStreak
          (State.converged state) (State.lastActivityAt state)))
    timestamp.

Definition evolveTestsFailed (state : State.t) (result : TestResult.t)
    (timestamp : Date) : State.t :=
  let updatedConfidence := confidenceAfterTests state false result in
  withConfidence state updatedConfidence 0 (State.converged state) timestamp.

(** [{ ...state.confidence, typesSafe }], then the score is recomputed. *)
Definition confidenceAfterTypeCheck (state : State.t) (typesSafe : bool)
    : Confidence.t :=
  let c := State.confidence state in
  rescore {| Confidence.typesSafe := typesSafe;
             Confidence.schemaValid := Confidence.schemaValid c;
             Confidence.testsPass := Confidence.testsPass c;
             Confidence.coverage := Confidence.coverage c;
             Confidence.checklistComplete := Confidence.checklistComplete c;
             Confidence.overallScore := Confidence.overallScore c |}.

Definition evolveTypeCheckPassed (state : State.t) (timestamp : Date)
    : State.t :=
  withConfidence state (confidenceAfterTypeCheck state true)
    (State.convergenceStreak state) (State.converged state) timestamp.

Definition evolveTypeCheckFailed (state : State.t) (timestamp : Date)
    : State.t :=
  withConfidence state (confidenceAfterTypeCheck state false)
    0 (State.converged state) timestamp.

Definition evolveConfidenceUpdated (state : State.t)
    (confidence : Confidence.t) (timestamp : Date) : State.t :=
  withConfidence state confidence (State.convergenceStreak state)
    (hasConverged
       (withConfidence state confidence (State.convergenceStreak state)
          (State.converged state) (State.lastActivityAt state)))
    timestamp.

Definition withCheckpoints (state : State.t)
    (pending lastApproved : option CheckpointSummary.t) (timestamp : Date)
    : State.t :=
  {| State.phase := State.phase state;
     State.turn := State.turn state;
     State.prompt := State.prompt state;
     State.checklist := State.checklist state;
     State.artifacts := State.artifacts state;
     State.budgets := State.budgets state;
     State.confidence := State.confidence state;
     State.pendingCheckpoint := pending;
     State.lastApprovedCheckpoint := lastApproved;
     State.convergenceStreak := State.convergenceStreak state;
     State.converged := State.converged state;
     State.startedAt := State.startedAt state;
     State.lastActivityAt := timestamp |}.

Definition evolveCheckpointCreated (state : State.t)
    (summary : CheckpointSummary.t) (timestamp : Date) : State.t :=
  withCheckpoints state (Some summary) (State.lastApprovedCheckpoint state)
    timestamp.

(** [state.pendingCheckpoint?.id !== checkpointId]: with nothing pending
    the left side is [undefined], which differs from every string. *)
Definition pendingIdDiffers (state : State.t) (checkpointId : string) : bool :=
  match State.pendingCheckpoint state with
  | Some c => negb (String.eqb (CheckpointSummary.id c) checkpointId)
  | None => true
  end.

Definition evolveCheckpointApproved (state : State.t) (checkpointId : string)
    (timestamp : Date) : State.t :=
  if pendingIdDiffers state checkpointId then state
  else withCheckpoints state None (State.pendingCheckpoint state) timestamp.

Definition evolveCheckpointRejected (state : State.t) (checkpointId : string)
    (timestamp : Date) : State.t :=
  if pendingIdDiffers state checkpointId then state
  else withCheckpoints state None (State.lastApprovedCheckpoint state)
         timestamp.

Definition evolveConvergenceReached (state : State.t) (finalConfidence : Q)
    (timestamp : Date) : State.t :=
  let c := State.confidence state in
  withConfidence state
    {| Confidence.typesSafe := Confidence.typesSafe c;
       Confidence.schemaValid := Confidence.schemaValid c;
       Confidence.testsPass := Confidence.testsPass c;
       Confidence.coverage := Confidence.coverage c;
       Confidence.checklistComplete := Confidence.checklistComplete c;
       Confidence.overallScore := finalConfidence |}
    (State.convergenceStreak state) true timestamp.

Definition evolveBudgetExhausted (state : State.t) (phase : Phase)
    (turnsUsed : Z) (timestamp : Date) : State.t :=
  let updatedBudgets :=
    map (fun b => if Phase_eqb (TurnBudget.phase b) phase
                  then setUsedTurns b turnsUsed else b)
        (State.budgets state) in
  withPhaseBudgets state (State.phase state) updatedBudgets timestamp.

(** [{ ...state, lastActivityAt: timestamp }]. *)
Definition evolveErrorOccurred (state : State.t) (timestamp : Date)
    : State.t :=
  withArtifacts state (State.artifacts state) timestamp.

Definition evolve (state : State.t) (event : Event.t) : State.t :=
  match event with
  | Event.Initialized prompt checklist budgets ts =>
      evolveInitialized state prompt checklist budgets ts
  | Event.PhaseStarted phase budget ts =>
      evolvePhaseStarted state phase budget ts
  | Event.PhaseCompleted phase turnsUsed ts =>
      evolvePhaseCompleted state phase turnsUsed ts
  | Event.TurnStarted turn _ ts => evolveTurnStarted state turn ts
  | Event.TurnCompleted _ phase _ ts => evolveTurnCompleted state phase ts
  | Event.ArtifactCreated artifact ts => evolveArtifactCreated state artifact ts
  | Event.ArtifactUpdated artifactId newHash ts =>
      evolveArtifactUpdated state artifactId newHash ts
  | Event.ChecklistItemCompleted itemId evidence ts =>
      evolveChecklistItemCompleted state itemId evidence ts
  | Event.TestsPassed result ts => evolveTestsPassed state result ts
  | Event.TestsFailed result ts => evolveTestsFailed state result ts
  | Event.TypeCheckPassed ts => evolveTypeCheckPassed state ts
  | Event.TypeCheckFailed _ ts => evolveTypeCheckFailed state ts
  | Event.ConfidenceUpdated confidence ts =>
      evolveConfidenceUpdated state confidence ts
  | Event.CheckpointCreated summary ts =>
      evolveCheckpointCreated state summary ts
  | Event.CheckpointApproved checkpointId ts =>
      evolveCheckpointApproved state checkpointId ts
  | Event.CheckpointRejected checkpointId _ ts =>
      evolveCheckpointRejected state checkpointId ts
  | Event.ConvergenceReached finalConfidence _ ts =>
      evolveConvergenceReached state finalConfidence ts
  | Event.BudgetExhausted phase turnsUsed ts =>
      evolveBudgetExhausted state phase turnsUsed ts
  | Event.ErrorOccurred _ _ ts => evolveErrorOccurred state ts
  end.

(** [events.reduce(evolve, initialState)]. *)
Definition replay (events : list Event.t) (initialState : State.t) : State.t :=
  fold_left evolve events initialState.

(** [events.slice(0, index).reduce(evolve, initialState)]; a negative
    [index] counts from the end of the array. *)
Definition replayUntil (events : list Event.t) (initialState : State.t)
    (index : Z) : State.t :=
  let len := Z.of_nat (length events) in
  let stop := if index <? 0 then Z.max (len + index) 0 else Z.min index len in
  fold_left evolve (firstn (Z.to_nat stop) events) initialState.

(* ------------------------------------------------------------------ *)
(** ** String helpers used by the decider *)

Definition nl : string := String (ascii_of_nat 10) EmptyString.
Definition dq : string := String (ascii_of_nat 34) EmptyString.
Definition quoted (s : string) : string := dq ++ s ++ dq.

(** The lines of a template literal, joined by line feeds. *)
Definition lines (l : list string) : string := String.concat nl l.

(** [s.slice(0, n)] for a non-negative literal [n]. *)
Definition slice0 (n : nat) (s : string) : string := substring 0 n s.

(** [s.length] as a number. *)
Definition strLength (s : string) : Z := Z.of_nat (String.length s).

(** [String(n)] / [`${n}`] for an integer (below 1e21 in magnitude, where
    JavaScript prints plain digits). *)
Definition intToString (n : Z) : string := NilZero.string_of_int (Z.to_int n).

(** [String(b)]. *)
Definition boolToString (b : bool) : string := if b then "true" else "false".

Definition upperAscii (c : ascii) : ascii :=
  let n := nat_of_ascii c in
  if (97 <=? n)%nat && (n <=? 122)%nat then ascii_of_nat (n - 32) else c.

(** [s.toUpperCase()] on the ASCII letters, which is all a phase name has. *)
Fixpoint toUpperCase (s : string) : string :=
  match s with
  | EmptyString => EmptyString
  | String c s' => String (upperAscii c) (toUpperCase s')
  end.

(** [toFixed(1)] of an exact value: sign, then the nearest tenth (ties
    upwards) with one fractional digit, for magnitudes below 1e21.  The
    code applies [toFixed] to a binary64 product, which can fall on the
    other side of a tie; the decider therefore takes the text from its
    environment ([Ambient.percent]), and this function only serves as the
    formatting of the sample environments. *)
Definition toFixed1 (x : Q) : string :=
  let sign := if Qle_bool 0 x then "" else "-" in
  let n := Qfloor (Qabs x * 10 + 0.5)%Q in
  sign ++ intToString (n / 10) ++ "." ++ intToString (n mod 10).

(** [a || b] on strings: the empty string is falsy. *)
Definition orElse (a b : string) : string :=
  match a with EmptyString => b | _ => a end.

Definition num (n : Z) : JsValue := JsNumber (inject_Z n).

(* ------------------------------------------------------------------ *)
(** ** The decider ([decide.ts]) *)

Module Ambient.
(** What [decide] reads from outside its arguments: the next [uuid()],
    the clock, and [percent score], the text of
    [(score * 100).toFixed(1)] as the host computes and prints it. *)
Record t : Type := mk {
  uuid : string;
  now : Date;
  percent : Q -> string
}.
End Ambient.

Definition log (level : LogLevel) (message : string) (context : Context)
    : Effect.t :=
  Effect.Log level message context.

Definition startSpan (name : string) (attributes : Context) : Effect.t :=
  Effect.StartSpan name attributes.

Definition recordMetric (name : string) (value : Q) (tags : Tags) : Effect.t :=
  Effect.RecordMetric name value tags.

Definition phaseItems (state : State.t) (phase : Phase)
    : list ChecklistItem.t :=
  filter (fun i => Phase_eqb (ChecklistItem.phase i) phase)
         (State.checklist state).

Definition isPhaseChecklistComplete (state : State.t) (phase : Phase) : bool :=
  let items := phaseItems state phase in
  (0 <? Z.of_nat (length items)) && forallb ChecklistItem.completed items.

Definition getIncompleteItems (state : State.t) (phase : Phase)
    : list string :=
  map ChecklistItem.description
      (filter (fun i => Phase_eqb (ChecklistItem.phase i) phase
                        && negb (ChecklistItem.completed i))
              (State.checklist state)).

Definition REQUIREMENTS_EXTRACTION_SYSTEM_PROMPT : string :=
  lines
    [ "You are an expert software architect. Your task is to analyze a project description and extract a structured checklist of requirements.";
      "";
      "For each requirement, identify:";
      "1. The phase it belongs to (requirements, design, implementation, testing, documentation, verification)";
      "2. A clear, actionable description";
      "3. How completion can be verified";
      "";
      "Output a JSON array of checklist items." ].

Definition buildRequirementsExtractionPrompt (projectPrompt : string)
    : string :=
  lines
    [ "Analyze this project description and extract a comprehensive checklist of requirements:";
      "";
      "PROJECT DESCRIPTION:";
      projectPrompt;
      "";
      "Extract requirements for ALL phases:";
      "- requirements: What must the software do? User stories, acceptance criteria";
      "- design: System architecture, component interfaces, data models";
      "- implementation: Code files to create, features to implement";
      "- testing: Test coverage, test types, edge cases";
      "- documentation: README, API docs, user guides";
      "- verification: Final checks, integration tests, deployment readiness";
      "";
      "Output as JSON array:";
      "[";
      "  {";
      "    " ++ quoted "phase" ++ ": " ++ quoted "requirements" ++ ",";
      "    " ++ quoted "description" ++ ": "
        ++ quoted "User can create an account with email and password" ++ ",";
      "    " ++ quoted "verification" ++ ": "
        ++ quoted "Registration endpoint returns 201 with user object";
      "  },";
      "  ...";
      "]" ].

Definition buildPhasePrompt (env : Ambient.t) (state : State.t) : string :=
  let incompleteItems :=
    String.concat nl
      (map (fun i => "- [ ] " ++ ChecklistItem.description i)
           (filter (fun i => Phase_eqb (ChecklistItem.phase i)
                                       (State.phase state)
                             && negb (ChecklistItem.completed i))
                   (State.checklist state))) in
  let completedItems :=
    String.concat nl
      (map (fun i => "- [x] " ++ ChecklistItem.description i)
           (filter (fun i => Phase_eqb (ChecklistItem.phase i)
                                       (State.phase state)
                             && ChecklistItem.completed i)
                   (State.checklist state))) in
  let artifacts :=
    String.concat nl
      (map (fun a => "- " ++ Artifact.path a)
           (filter (fun a => Phase_eqb (Artifact.phase a) (State.phase state))
                   (State.artifacts state))) in
  lines
    [ "CURRENT PHASE: " ++ toUpperCase (phaseName (State.phase state));
      "TURN: " ++ intToString (State.turn state);
      "CONFIDENCE: "
        ++ Ambient.percent env
             (Confidence.overallScore (State.confidence state))
        ++ "%";
      "";
      "ORIGINAL PROJECT PROMPT:";
      State.prompt state;
      "";
      "CHECKLIST FOR THIS PHASE:";
      "Completed:";
      orElse completedItems "(none)";
      "";
      "Remaining:";
      orElse incompleteItems "(all complete)";
      "";
      "ARTIFACTS CREATED:";
      orElse artifacts "(none yet)";
      "";
      "Your task: Complete the remaining checklist items for this phase. Write code, create files, and make progress." ].

Definition getPhaseSystemPrompt (phase : Phase) : string :=
  match phase with
  | requirements =>
      lines [ "You are analyzing and refining requirements. Focus on:";
              "- Clarifying ambiguous requirements";
              "- Identifying missing requirements";
              "- Breaking down complex requirements into smaller, testable items";
              "Do NOT write code yet." ]
  | design =>
      lines [ "You are designing the system architecture. Focus on:";
              "- Component interfaces (TypeScript types)";
              "- Data models (Zod schemas)";
              "- API contracts (OpenAPI-compatible)";
              "- File/folder structure";
              "Create type definitions and interfaces, not implementations." ]
  | implementation =>
      lines [ "You are implementing the software. Focus on:";
              "- One file at a time";
              "- Following the design from previous phase";
              "- Writing clean, testable code";
              "- Using the established types and interfaces" ]
  | testing =>
      lines [ "You are writing and running tests. Focus on:";
              "- Property-based tests for core logic";
              "- Unit tests for edge cases";
              "- Integration tests for component interactions";
              "- Achieving meaningful coverage (not 100% for its own sake)" ]
  | documentation =>
      lines [ "You are writing documentation. Focus on:";
              "- README with setup instructions";
              "- API documentation";
              "- Code comments for complex logic only";
              "- Examples and usage patterns" ]
  | verification =>
      lines [ "You are verifying the complete system. Focus on:";
              "- All tests pass";
              "- Types are sound";
              "- Documentation is complete";
              "- System runs end-to-end";
              "Report any issues found." ]
  end.

Definition phaseTag (phase : Phase) : Tags := [("phase", phaseName phase)].

Definition decideInitialize (prompt : string) (state : State.t)
    : list Effect.t :=
  if (0 <? State.turn state)
     || (0 <? Z.of_nat (length (State.checklist state)))
  then [ log warn "Attempted to initialize already-started session"
             [("turn", num (State.turn state))] ]
  else
    let effects :=
      [ log info "Initializing Turbine session"
            [("promptLength", num (strLength prompt))];
        startSpan "turbine.session"
                  [("prompt", JsString (slice0 100 prompt))] ] in
    effects ++
      [ Effect.InvokeLLM (buildRequirementsExtractionPrompt prompt)
          (Some REQUIREMENTS_EXTRACTION_SYSTEM_PROMPT) 4000 None ].

Definition decideAdvancePhase (state : State.t) : list Effect.t :=
  let currentIndex := indexOf PHASE_ORDER (State.phase state) in
  match at_index PHASE_ORDER (currentIndex + 1) with
  | None =>
      [ log info "Already at final phase, checking convergence"
            [("phase", JsString (phaseName (State.phase state)))] ]
  | Some nextPhase =>
      let phaseChecklistComplete :=
        isPhaseChecklistComplete state (State.phase state) in
      if negb phaseChecklistComplete then
        [ log warn "Cannot advance phase - checklist incomplete"
              [("phase", JsString (phaseName (State.phase state)));
               ("incomplete",
                JsStrings (getIncompleteItems state (State.phase state)))] ]
      else
        [ log info "Advancing to next phase"
              [("from", JsString (phaseName (State.phase state)));
               ("to", JsString (phaseName nextPhase))];
          recordMetric "phase_completed" 1 (phaseTag (State.phase state)) ]
  end.

(** [state.budgets.find((b) => b.phase === state.phase)]: the first entry of
    the list for the current phase. *)
Definition currentBudget (state : State.t) : option TurnBudget.t :=
  find (fun b => Phase_eqb (TurnBudget.phase b) (State.phase state))
       (State.budgets state).

(** [budget && budget.usedTurns >= budget.maxTurns]. *)
Definition budgetExhausted (budget : option TurnBudget.t) : bool :=
  match budget with
  | Some b => TurnBudget.maxTurns b <=? TurnBudget.usedTurns b
  | None => false
  end.

Definition decideStartTurn (env : Ambient.t) (state : State.t)
    : list Effect.t :=
  if hasConverged state then
    [ log info "Session converged - no more turns needed"
          [("confidence",
            JsNumber (Confidence.overallScore (State.confidence state)));
           ("streak", num (State.convergenceStreak state))] ]
  else
    let budget := currentBudget state in
    if budgetExhausted budget then
      [ log warn "Budget exhausted for phase"
            [("phase", JsString (phaseName (State.phase state)));
             ("used",
              match budget with
              | Some b => num (TurnBudget.usedTurns b)
              | None => JsUndefined
              end)];
        recordMetric "budget_exhausted" 1 (phaseTag (State.phase state)) ]
    else
      let effects :=
        [ startSpan "turbine.turn"
            [("turn", num (State.turn state + 1));
             ("phase", JsString (phaseName (State.phase state)))];
          log info "Starting turn"
            [("turn", num (State.turn state + 1));
             ("phase", JsString (phaseName (State.phase state)))] ] in
      let prompt := buildPhasePrompt env state in
      effects ++
        [ Effect.InvokeLLM prompt
            (Some (getPhaseSystemPrompt (State.phase state))) 8000 None ].

(** The body of the loop over [response.toolUses]: the effects one tool use
    pushes.  The input is a record by its type, so the [typeof] and [null]
    tests of the source hold; [input.path && input.content] tests
    truthiness, whatever the values are, and the values go into the effect
    as they are. *)
Definition toolUseEffects (toolUse : ToolUse.t) : list Effect.t :=
  if String.eqb (ToolUse.tool toolUse) "write_file" then
    let path := getProperty (ToolUse.input toolUse) "path" in
    let content := getProperty (ToolUse.input toolUse) "content" in
    if isTruthy path && isTruthy content
    then [ Effect.WriteFile path content ]
    else []
  else [].

Definition decideProcessLLMResponse (response : LLMResponse.t)
    (state : State.t) : list Effect.t :=
  let effects :=
    [ log info "Processing LLM response"
          [("turn", num (State.turn state));
           ("tokensUsed", num (LLMResponse.tokensUsed response));
           ("toolUseCount",
            num (Z.of_nat (length (LLMResponse.toolUses response))))];
      recordMetric "tokens_used" (inject_Z (LLMResponse.tokensUsed response))
                   (phaseTag (State.phase state)) ] in
  let effects :=
    (effects ++ flat_map toolUseEffects (LLMResponse.toolUses response))%list
  in
  if Phase_eqb (State.phase state) implementation
     || Phase_eqb (State.phase state) testing
  then effects ++ [ Effect.RunTests None (Some true); Effect.CheckTypes ]
  else effects.

Definition decideRecordArtifact (path hash : string) (state : State.t)
    : list Effect.t :=
  let existingArtifact :=
    find (fun a => String.eqb (Artifact.path a) path)
         (State.artifacts state) in
  match existingArtifact with
  | Some _ =>
      [ log info "Artifact updated"
            [("path", JsString path); ("newHash", JsString hash)];
        recordMetric "artifact_updated" 1 (phaseTag (State.phase state)) ]
  | None =>
      [ log info "Artifact created"
            [("path", JsString path); ("hash", JsString hash)];
        recordMetric "artifact_created" 1 (phaseTag (State.phase state)) ]
  end.

Definition decideRecordTestResult (result : TestResult.t) (state : State.t)
    : list Effect.t :=
  let effects :=
    [ log info "Test results recorded"
          [("passed", JsBoolean (TestResult.passed result));
           ("total", num (TestResult.totalTests result));
           ("failed", num (TestResult.failedTests result));
           ("coverage",
            match TestResult.coverage result with
            | Some c => JsNumber c
            | None => JsUndefined
            end)];
      recordMetric "tests_total" (inject_Z (TestResult.totalTests result))
                   (phaseTag (State.phase state));
      recordMetric "tests_passed" (inject_Z (TestResult.passedTests result))
                   (phaseTag (State.phase state));
      recordMetric "tests_failed" (inject_Z (TestResult.failedTests result))
                   (phaseTag (State.phase state)) ] in
  let effects :=
    match TestResult.coverage result with
    | Some c =>
        (effects
           ++ [ recordMetric "coverage" c (phaseTag (State.phase state)) ])%list
    | None => effects
    end in
  let newConfidence :=
    confidenceAfterTests state (TestResult.passed result) result in
  effects ++
    [ recordMetric "confidence" (Confidence.overallScore newConfidence)
                   (phaseTag (State.phase state)) ].

Definition decideRecordTypeCheck (passed : bool)
    (errors : option (list string)) (state : State.t) : list Effect.t :=
  let effects :=
    [ log info "Type check result" [("passed", JsBoolean passed)];
      recordMetric "type_check_passed" (if passed then 1 else 0)%Q
                   (phaseTag (State.phase state)) ] in
  match errors with
  | Some errs =>
      if negb passed then
        effects ++
          [ log warn "Type errors found"
                [("count", num (Z.of_nat (length errs)));
                 ("errors", JsStrings (firstn 5 errs))] ]
      else effects
  | None => effects
  end.

Definition decideCompleteChecklistItem (itemId evidence : string)
    (state : State.t) : list Effect.t :=
  match find (fun i => String.eqb (ChecklistItem.id i) itemId)
             (State.checklist state) with
  | None => [ log warn "Checklist item not found"
                  [("itemId", JsString itemId)] ]
  | Some item =>
      if ChecklistItem.completed item then
        [ log info "Checklist item already completed"
              [("itemId", JsString itemId)] ]
      else
        [ log info "Checklist item completed"
              [("itemId", JsString itemId);
               ("description", JsString (ChecklistItem.description item));
               ("evidence", JsString (slice0 100 evidence))];
          recordMetric "checklist_item_completed" 1
                       (phaseTag (ChecklistItem.phase item)) ]
  end.

Definition decideRequestCheckpoint (env : Ambient.t) (state : State.t)
    : list Effect.t :=
  match State.pendingCheckpoint state with
  | Some pending =>
      [ log warn "Checkpoint already pending"
            [("checkpointId", JsString (CheckpointSummary.id pending))] ]
  | None =>
      let checklistCompleted :=
        Z.of_nat (length (filter ChecklistItem.completed
                                 (State.checklist state))) in
      let checklistTotal := Z.of_nat (length (State.checklist state)) in
      let summary :=
        {| CheckpointSummary.id := Ambient.uuid env;
           CheckpointSummary.phase := State.phase state;
           CheckpointSummary.turn := State.turn state;
           CheckpointSummary.checklistProgress_completed := checklistCompleted;
           CheckpointSummary.checklistProgress_total := checklistTotal;
           CheckpointSummary.artifactCount :=
             Z.of_nat (length (State.artifacts state));
           CheckpointSummary.confidence :=
             Confidence.overallScore (State.confidence state);
           CheckpointSummary.createdAt := Ambient.now env |} in
      [ log info "Checkpoint requested" [("summary", JsSummary summary)];
        Effect.EmitCheckpoint summary;
        Effect.WaitForApproval (CheckpointSummary.id summary) 300000 ]
  end.

Definition decideApproveCheckpoint (state : State.t) : list Effect.t :=
  match State.pendingCheckpoint state with
  | None => [ log warn "No pending checkpoint to approve" [] ]
  | Some pending =>
      [ log info "Checkpoint approved"
            [("checkpointId", JsString (CheckpointSummary.id pending))];
        recordMetric "checkpoint_approved" 1 (phaseTag (State.phase state)) ]
  end.

Definition decideRejectCheckpoint (reason : string) (state : State.t)
    : list Effect.t :=
  match State.pendingCheckpoint state with
  | None => [ log warn "No pending checkpoint to reject" [] ]
  | Some pending =>
      [ log warn "Checkpoint rejected"
            [("checkpointId", JsString (CheckpointSummary.id pending));
             ("reason", JsString reason)];
        recordMetric "checkpoint_rejected" 1 (phaseTag (State.phase state)) ]
  end.

Definition decideTimeout (phase : Phase) (state : State.t) : list Effect.t :=
  [ log error "Phase timeout"
        [("phase", JsString (phaseName phase));
         ("turn", num (State.turn state))];
    recordMetric "phase_timeout" 1 (phaseTag phase) ].

Definition decideError (message : string) (recoverable : bool)
    (state : State.t) : list Effect.t :=
  [ log error message
        [("recoverable", JsBoolean recoverable);
         ("turn", num (State.turn state))];
    recordMetric "errors_total" 1
      [("phase", phaseName (State.phase state));
       ("recoverable", boolToString recoverable)] ].

Definition decide (env : Ambient.t) (command : Command.t) (state : State.t)
    : list Effect.t :=
  match command with
  | Command.Initialize prompt _ => decideInitialize prompt state
  | Command.AdvancePhase => decideAdvancePhase state
  | Command.StartTurn => decideStartTurn env state
  | Command.ProcessLLMResponse response =>
      decideProcessLLMResponse response state
  | Command.RecordArtifact path hash => decideRecordArtifact path hash state
  | Command.RecordTestResult result => decideRecordTestResult result state
  | Command.RecordTypeCheck passed errors =>
      decideRecordTypeCheck passed errors state
  | Command.CompleteChecklistItem itemId evidence =>
      decideCompleteChecklistItem itemId evidence state
  | Command.RequestCheckpoint => decideRequestCheckpoint env state
  | Command.ApproveCheckpoint => decideApproveCheckpoint state
  | Command.RejectCheckpoint reason => decideRejectCheckpoint reason state
  | Command.Timeout phase => decideTimeout phase state
  | Command.Error message recoverable => decideError message recoverable state
  end.

(** The kinds of effect the claims single out. *)
Definition isInvokeLLM (e : Effect.t) : bool :=
  match e with Effect.InvokeLLM _ _ _ _ => true | _ => false end.

Definition isPersistence (e : Effect.t) : bool :=
  match e with
  | Effect.PersistEvent _ | Effect.CreateSnapshot _ _ => true
  | _ => false
  end.

Definition noPersistence (l : list Effect.t) : bool :=
  forallb (fun e => negb (isPersistence e)) l.

(** The convergence invariant of the data model:
    [converged => overallScore >= 0.9 /\ convergenceStreak >= 3]. *)
Definition convergenceInvariant (s : State.t) : Prop :=
  State.converged s = true ->
  (0.9 <= Confidence.overallScore (State.confidence s))%Q
  /\ 3 <= State.convergenceStreak s.

(* ------------------------------------------------------------------ *)
(** ** Debug replay ([evolve.ts]) *)

Module ReplayStep.
(** What [debugReplay] hands to its logger at each step. *)
Record t : Type := mk {
  index : Z;
  event : Event.t;
  stateBefore : State.t;
  stateAfter : State.t
}.
End ReplayStep.

(** The loop of [debugReplay] from index [i] on; the logger calls come back
    in the order they are made. *)
Fixpoint debugReplayFrom (i : Z) (events : list Event.t) (state : State.t)
    : State.t * list ReplayStep.t :=
  match events with
  | [] => (state, [])
  | event :: rest =>
      let stateBefore := state in
      let state := evolve state event in
      let (final, calls) := debugReplayFrom (i + 1) rest state in
      (final,
       {| ReplayStep.index := i;
          ReplayStep.event := event;
          ReplayStep.stateBefore := stateBefore;
          ReplayStep.stateAfter := state |} :: calls)
  end.

Definition debugReplay (events : list Event.t) (initialState : State.t)
    : State.t * list ReplayStep.t :=
  debugReplayFrom 0 events initialState.

(* ------------------------------------------------------------------ *)
(** ** From effect results back to events ([interpreter.ts]) *)

Definition levelName (l : LogLevel) : string :=
  match l with
  | debug => "debug"
  | info => "info"
  | warn => "warn"
  | error => "error"
  end.

Module EffectResult.
Inductive t : Type :=
  | LLMResponse (content : string) (toolUses : list ToolUse.t)
      (tokensUsed : Z)
  | FileWritten (path hash : string)
  | FileRead (path content : string)
  | FileDeleted (path : string)
  | DirectoryListed (path : string) (files : list string)
  | TestsRan (result : TestResult.t)
  | TypesChecked (passed : bool) (errors : list string)
  | SchemaValidated (valid : bool) (errors : list string)
  | SpanStarted (spanId : string)
  | SpanEnded (spanId : string)
  | MetricRecorded (name : string)
  | Logged (level message : string)
  | CheckpointEmitted (checkpointId : string)
  | ApprovalReceived (approved : bool) (reason : option string)
  | EventPersisted (eventIndex : Z)
  | SnapshotCreated (atEventIndex : Z)
  | Void.
End EffectResult.

(** The result [executeEffectImpl] returns for an effect, when it returns:
    one rule per [case], with whatever the adapters and the file system
    answer left open. *)
Inductive executeEffectImpl : Effect.t -> EffectResult.t -> Prop :=
  | exec_InvokeLLM prompt systemPrompt maxTokens temperature
        content toolUses tokensUsed :
      executeEffectImpl
        (Effect.InvokeLLM prompt systemPrompt maxTokens temperature)
        (EffectResult.LLMResponse content toolUses tokensUsed)
  | exec_WriteFile path content hash :
      executeEffectImpl (Effect.WriteFile (UnknownString path) content)
                        (EffectResult.FileWritten path hash)
  | exec_ReadFile path content :
      executeEffectImpl (Effect.ReadFile path)
                        (EffectResult.FileRead path content)
  | exec_DeleteFile path :
      executeEffectImpl (Effect.DeleteFile path)
                        (EffectResult.FileDeleted path)
  | exec_ListDirectory path recursive files :
      executeEffectImpl (Effect.ListDirectory path recursive)
                        (EffectResult.DirectoryListed path files)
  | exec_RunTests pattern coverage result :
      executeEffectImpl (Effect.RunTests pattern coverage)
                        (EffectResult.TestsRan result)
  | exec_CheckTypes passed errors :
      executeEffectImpl Effect.CheckTypes
                        (EffectResult.TypesChecked passed errors)
  | exec_ValidateSchema schemaPath dataPath valid errors :
      executeEffectImpl (Effect.ValidateSchema schemaPath dataPath)
                        (EffectResult.SchemaValidated valid errors)
  | exec_StartSpan name attributes spanId :
      executeEffectImpl (Effect.StartSpan name attributes)
                        (EffectResult.SpanStarted spanId)
  | exec_EndSpan spanId status err :
      executeEffectImpl (Effect.EndSpan spanId status err)
                        (EffectResult.SpanEnded spanId)
  | exec_RecordMetric name value tags :
      executeEffectImpl (Effect.RecordMetric name value tags)
                        (EffectResult.MetricRecorded name)
  | exec_Log level message context :
      executeEffectImpl (Effect.Log level message context)
                        (EffectResult.Logged (levelName level) message)
  | exec_EmitCheckpoint summary :
      executeEffectImpl
        (Effect.EmitCheckpoint summary)
        (EffectResult.CheckpointEmitted (CheckpointSummary.id summary))
  | exec_WaitForApproval checkpointId timeoutMs approved reason :
      executeEffectImpl (Effect.WaitForApproval checkpointId timeoutMs)
                        (EffectResult.ApprovalReceived approved reason)
  | exec_PersistEvent event eventIndex :
      executeEffectImpl (Effect.PersistEvent event)
                        (EffectResult.EventPersisted eventIndex)
  | exec_CreateSnapshot state atEventIndex :
      executeEffectImpl (Effect.CreateSnapshot state atEventIndex)
                        (EffectResult.SnapshotCreated atEventIndex).

(** [executeEffects], when no effect throws: the results line up with the
    effects, one each and in order. *)
Definition executeEffects (effects : list Effect.t)
    (results : list EffectResult.t) : Prop :=
  Forall2 executeEffectImpl effects results.

(** [resultToEvents]; [env] holds what [new Date()] and [uuid()] return
    during the call. *)
Definition resultToEvents (env : Ambient.t) (effect : Effect.t)
    (result : EffectResult.t) (state : State.t) : list Event.t :=
  let timestamp := Ambient.now env in
  match result with
  | EffectResult.FileWritten path hash =>
      let existingArtifact :=
        find (fun a => String.eqb (Artifact.path a) path)
             (State.artifacts state) in
      match existingArtifact with
      | Some existing =>
          [ Event.ArtifactUpdated (Artifact.id existing) hash timestamp ]
      | None =>
          let artifact :=
            {| Artifact.id := Ambient.uuid env;
               Artifact.path := path;
               Artifact.hash := hash;
               Artifact.phase := State.phase state;
               Artifact.createdAt := timestamp;
               Artifact.updatedAt := timestamp |} in
          [ Event.ArtifactCreated artifact timestamp ]
      end
  | EffectResult.TestsRan result =>
      if TestResult.passed result
      then [ Event.TestsPassed result timestamp ]
      else [ Event.TestsFailed result timestamp ]
  | EffectResult.TypesChecked passed errors =>
      if passed
      then [ Event.TypeCheckPassed timestamp ]
      else [ Event.TypeCheckFailed errors timestamp ]
  | _ => []
  end.

(* ------------------------------------------------------------------ *)
(** ** The orchestrator's pure steps ([orchestrator.ts]) *)

(** [Orchestrator.resultsToEvents]: the loop over [effects], from position
    [i] on.  Past the end of [results] the result is [undefined] and the
    position is skipped.  [envs i] is the clock and uuid source of the call
    made at position [i]; the state is the one the command started from. *)
Fixpoint resultsToEventsFrom (envs : nat -> Ambient.t) (i : nat)
    (effects : list Effect.t) (results : list EffectResult.t)
    (state : State.t) : list Event.t :=
  match effects, results with
  | effect :: effects', result :: results' =>
      resultToEvents (envs i) effect result state
        ++ resultsToEventsFrom envs (S i) effects' results' state
  | _, _ => []
  end.

Definition resultsToEvents (envs : nat -> Ambient.t)
    (effects : list Effect.t) (results : list EffectResult.t)
    (state : State.t) : list Event.t :=
  resultsToEventsFrom envs 0 effects results state.

(** The state [processCommand] ends in when nothing throws: the events
    derived from the results, applied in order.  [results] is what
    [executeEffects] returned. *)
Definition processCommandState (env : Ambient.t) (envs : nat -> Ambient.t)
    (command : Command.t) (results : list EffectResult.t) (state : State.t)
    : State.t :=
  let effects := decide env command state in
  let events := resultsToEvents envs effects results state in
  fold_left evolve events state.

(** The condition [allComplete] of [checkPhaseAdvancement]. *)
Definition allComplete (state : State.t) : bool :=
  let phaseItems :=
    filter (fun i => Phase_eqb (ChecklistItem.phase i) (State.phase state))
           (State.checklist state) in
  (0 <? Z.of_nat (length phaseItems))
  && forallb ChecklistItem.completed phaseItems.

(** [shouldStop], without its log calls. *)
Definition shouldStop (maxTurns : Z) (state : State.t) : bool :=
  if hasConverged state then true
  else if maxTurns <=? State.turn state then true
  else if State.converged state then true
  else false.

(* ------------------------------------------------------------------ *)
(** ** Snapshot policy ([event-log.ts]) *)

(** [a % b === 0] on integers: the remainder has the sign of [a], and a
    zero divisor gives [NaN], which is not [0]. *)
Definition remIsZero (a b : Z) : bool :=
  if b =? 0 then false else Z.rem a b =? 0.

(** [DefaultSnapshotPolicy.shouldSnapshot], with the policy's [interval]. *)
Definition shouldSnapshot (interval : Z) (eventCount : Z) (event : Event.t)
    : bool :=
  if remIsZero eventCount interval then true
  else if String.eqb (Event.kind event) "PhaseStarted"
          || String.eqb (Event.kind event) "PhaseCompleted" then true
  else if String.eqb (Event.kind event) "ConvergenceReached" then true
  else false.

(* ------------------------------------------------------------------ *)
(** ** The log buffer of the aggregating telemetry ([telemetry.ts]) *)

Module LogRecord.
Record t : Type := mk {
  level : string;
  message : string;
  timestamp : Date
}.
End LogRecord.

(** What [AggregatingTelemetryAdapter.log] does to [this.logs]: push the
    record, then shift the oldest one out when more than 1000 are held. *)
Definition keepLog (logs : list LogRecord.t) (record : LogRecord.t)
    : list LogRecord.t :=
  let logs := (logs ++ [record])%list in
  if 1000 <? Z.of_nat (length logs) then tl logs else logs.

(** The two counts of [getSummary]. *)
Definition errorCount (logs : list LogRecord.t) : Z :=
  Z.of_nat (length (filter (fun l => String.eqb (LogRecord.level l) "error")
                           logs)).

Definition warnCount (logs : list LogRecord.t) : Z :=
  Z.of_nat (length (filter (fun l => String.eqb (LogRecord.level l) "warn")
                           logs)).

(* ------------------------------------------------------------------ *)
(** ** Bookkeeping used by the properties *)

Definition isTestsPassed (e : Event.t) : bool :=
  match e with Event.TestsPassed _ _ => true | _ => false end.

(** The events that reset the convergence streak. *)
Definition isFailure (e : Event.t) : bool :=
  match e with
  | Event.TestsFailed _ _ | Event.TypeCheckFailed _ _ => true
  | _ => false
  end.

(** The events that install a budget list or a budget entry of their own:
    [Initialized] always, [PhaseStarted] when the entry it carries is filed
    under another phase than the one it names. *)
Definition rewritesBudgetPhases (e : Event.t) : bool :=
  match e with
  | Event.Initialized _ _ _ _ => true
  | Event.PhaseStarted phase budget _ =>
      negb (Phase_eqb (TurnBudget.phase budget) phase)
  | _ => false
  end.

Definition isInitialized (e : Event.t) : bool :=
  match e with Event.Initialized _ _ _ _ => true | _ => false end.

(** The events whose handler writes the stored score from outside instead
    of recomputing it. *)
Definition overwritesScore (e : Event.t) : bool :=
  match e with
  | Event.ConfidenceUpdated _ _ | Event.ConvergenceReached _ _ _ => true
  | _ => false
  end.

(** The stored score agrees with the flags it is derived from. *)
Definition scoreConsistent (s : State.t) : Prop :=
  Confidence.overallScore (State.confidence s)
  = calculateOverallConfidence (State.confidence s).

Definition isWriteFile (e : Effect.t) : bool :=
  match e with Effect.WriteFile _ _ => true | _ => false end.

Definition isVerification (e : Effect.t) : bool :=
  match e with
  | Effect.RunTests _ _ | Effect.CheckTypes => true
  | _ => false
  end.

(** The effect kinds no handler of [decide] builds. *)
Definition isNeverDecided (e : Effect.t) : bool :=
  match e with
  | Effect.ReadFile _ | Effect.DeleteFile _ | Effect.ListDirectory _ _
  | Effect.ValidateSchema _ _ | Effect.EndSpan _ _ _ => true
  | _ => false
  end.

(** An artifact's identity: the fields no handler rewrites. *)
Definition artifactKey (a : Artifact.t) : string * string :=
  (Artifact.id a, Artifact.path a).

(** The artifacts a run of events creates, in order. *)
Definition createdArtifacts (events : list Event.t) : list Artifact.t :=
  flat_map (fun e => match e with
                     | Event.ArtifactCreated a _ => [a]
                     | _ => []
                     end) events.

(** What one checklist item may become: same id, phase and description,
    and never from completed back to open. *)
Definition itemAdvances (a b : ChecklistItem.t) : Prop :=
  ChecklistItem.id a = ChecklistItem.id b
  /\ ChecklistItem.phase a = ChecklistItem.phase b
  /\ ChecklistItem.description a = ChecklistItem.description b
  /\ (ChecklistItem.completed a = true -> ChecklistItem.completed b = true).

(** [TurnCompleted] events of one phase. *)
Definition isTurnCompletedOf (phase : Phase) (e : Event.t) : bool :=
  match e with
  | Event.TurnCompleted _ p _ _ => Phase_eqb p phase
  | _ => false
  end.

(** The effects whose result [resultToEvents] maps to no event. *)
Definition isQuiet (e : Effect.t) : bool :=
  match e with
  | Effect.WriteFile _ _ | Effect.RunTests _ _ | Effect.CheckTypes => false
  | _ => true
  end.

Definition isProcessLLMResponse (c : Command.t) : bool :=
  match c with Command.ProcessLLMResponse _ => true | _ => false end.

Definition isWarnLog (e : Effect.t) : bool :=
  match e with Effect.Log warn _ _ => true | _ => false end.

(** The fields that only commands of the orchestrator's own loop could
    move: two states agree on them. *)
Definition sameProgress (s s' : State.t) : Prop :=
  State.turn s' = State.turn s
  /\ State.phase s' = State.phase s
  /\ State.prompt s' = State.prompt s
  /\ State.checklist s' = State.checklist s
  /\ State.budgets s' = State.budgets s
  /\ State.pendingCheckpoint s' = State.pendingCheckpoint s
  /\ State.lastApprovedCheckpoint s' = State.lastApprovedCheckpoint s
  /\ State.startedAt s' = State.startedAt s.

(* ------------------------------------------------------------------ *)
(** ** Sample values *)

Module Sample.
Definition confidence : Confidence.t :=
  {| Confidence.typesSafe := true;
     Confidence.schemaValid := true;
     Confidence.testsPass := true;
     Confidence.coverage := 40;
     Confidence.checklistComplete := false;
     Confidence.overallScore := 0 |}.

#[local] Set Warnings "-inexact-float".



#[local] Set Warnings "+inexact-float".

(** Types and schema green, checklist complete, coverage 95, nothing
    accumulated yet. *)
Definition green : Confidence.t :=
  {| Confidence.typesSafe := true;
     Confidence.schemaValid := true;
     Confidence.testsPass := false;
     Confidence.coverage := 95;
     Confidence.checklistComplete := true;
     Confidence.overallScore := 0 |}.

Definition state (phase : Phase) (turn : Z) (budgets : list TurnBudget.t)
    (confidence : Confidence.t) : State.t :=
  {| State.phase := phase;
     State.turn := turn;
     State.prompt := "hello";
     State.checklist := [];
     State.artifacts := [];
     State.budgets := budgets;
     State.confidence := confidence;
     State.pendingCheckpoint := None;
     State.lastApprovedCheckpoint := None;
     State.convergenceStreak := 0;
     State.converged := false;
     State.startedAt := 0;
     State.lastActivityAt := 0 |}.

Definition budget (phase : Phase) (maxTurns usedTurns : Z) : TurnBudget.t :=
  {| TurnBudget.phase := phase;
     TurnBudget.maxTurns := maxTurns;
     TurnBudget.usedTurns := usedTurns |}.

Definition passed95 : TestResult.t :=
  {| TestResult.passed := true;
     TestResult.totalTests := 10;
     TestResult.passedTests := 10;
     TestResult.failedTests := 0;
     TestResult.coverage := Some 95%Q;
     TestResult.failures := [] |}.

Definition failed : TestResult.t :=
  {| TestResult.passed := false;
     TestResult.totalTests := 10;
     TestResult.passedTests := 8;
     TestResult.failedTests := 2;
     TestResult.coverage := None;
     TestResult.failures := [("adds", "expected 3, got 4");
                             ("parses", "unexpected token")] |}.

Definition summary (id : string) : CheckpointSummary.t :=
  {| CheckpointSummary.id := id;
     CheckpointSummary.phase := requirements;
     CheckpointSummary.turn := 0;
     CheckpointSummary.checklistProgress_completed := 0;
     CheckpointSummary.checklistProgress_total := 0;
     CheckpointSummary.artifactCount := 0;
     CheckpointSummary.confidence := 0;
     CheckpointSummary.createdAt := 0 |}.

Definition env : Ambient.t :=
  {| Ambient.uuid := "00000000-0000-4000-8000-000000000000";
     Ambient.now := 0;
     Ambient.percent := fun score => toFixed1 (score * 100)%Q |}.
End Sample.

Module Fixture.
Definition item (id : string) (phase : Phase) (completed : bool)
    : ChecklistItem.t :=
  {| ChecklistItem.id := id;
     ChecklistItem.phase := phase;
     ChecklistItem.description := "item " ++ id;
     ChecklistItem.completed := completed;
     ChecklistItem.evidence := None;
     ChecklistItem.completedAt := None |}.

Definition artifact (id path hash : string) : Artifact.t :=
  {| Artifact.id := id;
     Artifact.path := path;
     Artifact.hash := hash;
     Artifact.phase := implementation;
     Artifact.createdAt := 0;
     Artifact.updatedAt := 0 |}.

(** A session in [implementation] with two items, one artifact and a budget
    of three turns, one of them used. *)
Definition working : State.t :=
  {| State.phase := implementation;
     State.turn := 4;
     State.prompt := "hello";
     State.checklist := [ item "i1" implementation true;
                          item "i2" implementation false ];
     State.artifacts := [ artifact "a1" "src/main.ts" "h0" ];
     State.budgets := [ Sample.budget design 100 7;
                        Sample.budget implementation 3 1 ];
     State.confidence := Sample.green;
     State.pendingCheckpoint := None;
     State.lastApprovedCheckpoint := None;
     State.convergenceStreak := 1;
     State.converged := false;
     State.startedAt := 0;
     State.lastActivityAt := 0 |}.

Definition envs (i : nat) : Ambient.t :=
  {| Ambient.uuid :=
       "00000000-0000-4000-8000-00000000000" ++ intToString (Z.of_nat i);
     Ambient.now := 100 + Z.of_nat i;
     Ambient.percent := fun score => toFixed1 (score * 100)%Q |}.
End Fixture.

(* ------------------------------------------------------------------ *)
(** ** Proof helpers *)

(** Destructs the id guard of the two checkpoint handlers wherever it
    shows up. *)
Ltac case_guard :=
  repeat match goal with
         | |- context [pendingIdDiffers ?s ?c] =>
             let Hd := fresh "Hd" in
             destruct (pendingIdDiffers s c) eqn:Hd
         end.

(** Opens [evolve] at each of the nineteen events. *)
Ltac evolve_cases e :=
  destruct e; cbn [evolve];
  unfold evolveCheckpointApproved, evolveCheckpointRejected;
  case_guard.

(* ------------------------------------------------------------------ *)
(** * Properties *)

(** ** Confidence arithmetic *)


Lemma coverageScore_le (q : Q) : (Qmin (q / 80) 1 * 0.25 <= 0.25)%Q.
Proof.
  setoid_replace 0.25%Q with (1 * 0.25)%Q at 2 by reflexivity.
  apply Qmult_le_compat_r; [apply Q.le_min_r | discriminate].
Qed.


Lemma coverage_threshold (c : Q) :
  (0.9 <= 0.5 + Qmin (c / 80) 1 * 0.25 + 0.25 <-> 48 <= c)%Q.
Proof.
  assert (Hc : (c / 80 * 80 == c)%Q) by field.
  destruct (Q.min_spec (c / 80) 1) as [[H1 H2] | [H1 H2]]; rewrite H2;
    split; intros H; lra.
Qed.

Lemma calculateOverallConfidence_reaches (c : Confidence.t) :
  Confidence.typesSafe c = true ->
  Confidence.schemaValid c = true ->
  Confidence.testsPass c = true ->
  Confidence.checklistComplete c = true ->
  (48 <= Confidence.coverage c)%Q ->
  (0.9 <= calculateOverallConfidence c)%Q.
Proof.
  intros Ht Hs Hp Hc Hv. unfold calculateOverallConfidence.
  rewrite Ht, Hs, Hp, Hc. cbn [negb]. cbv zeta.
  now apply coverage_threshold.
Qed.









(** ** Convergence in three ticks *)

(** What one [TestsPassed] event carrying coverage 95 does to a state whose
    type, schema and checklist gates are open: the score becomes 1, the
    streak grows by one, the gates stay open. *)
Lemma evolveTestsPassed_green (s : State.t) (r : TestResult.t) (ts : Date) :
  Confidence.typesSafe (State.confidence s) = true ->
  Confidence.schemaValid (State.confidence s) = true ->
  Confidence.checklistComplete (State.confidence s) = true ->
  TestResult.coverage r = Some 95%Q ->
  let s' := evolve s (Event.TestsPassed r ts) in
  Confidence.typesSafe (State.confidence s') = true
  /\ Confidence.schemaValid (State.confidence s') = true
  /\ Confidence.checklistComplete (State.confidence s') = true
  /\ (Confidence.overallScore (State.confidence s') == 1)%Q
  /\ State.convergenceStreak s' = State.convergenceStreak s + 1
  /\ State.converged s' = (3 <=? State.convergenceStreak s + 1).
Proof.
  intros Ht Hs Hc Hr s'. subst s'.
  unfold evolve, evolveTestsPassed, hasConverged, confidenceAfterTests,
    rescore, calculateOverallConfidence, withConfidence.
  cbn [State.confidence State.convergenceStreak State.converged
       Confidence.overallScore Confidence.typesSafe Confidence.schemaValid
       Confidence.testsPass Confidence.coverage Confidence.checklistComplete].
  rewrite Hr, Ht, Hs, Hc. cbn [nullish negb].
  repeat split; reflexivity.
Qed.

(** C2. From a state with [typesSafe], [schemaValid] and [checklistComplete]
    true, coverage 95 and a streak of 0, three [TestsPassed] events with
    coverage 95 applied in sequence give [overallScore = 1.0],
    [convergenceStreak = 3] and [converged = true]. *)
Theorem convergence_in_three_ticks
    (s : State.t) (r1 r2 r3 : TestResult.t) (t1 t2 t3 : Date) :
  Confidence.typesSafe (State.confidence s) = true ->
  Confidence.schemaValid (State.confidence s) = true ->
  Confidence.checklistComplete (State.confidence s) = true ->
  (Confidence.coverage (State.confidence s) == 95)%Q ->
  State.convergenceStreak s = 0 ->
  TestResult.coverage r1 = Some 95%Q ->
  TestResult.coverage r2 = Some 95%Q ->
  TestResult.coverage r3 = Some 95%Q ->
  let s3 :=
    evolve (evolve (evolve s (Event.TestsPassed r1 t1))
                   (Event.TestsPassed r2 t2))
           (Event.TestsPassed r3 t3) in
  (Confidence.overallScore (State.confidence s3) == 1)%Q
  /\ State.convergenceStreak s3 = 3
  /\ State.converged s3 = true.
Proof.
  intros Ht Hs Hc _ Hk H1 H2 H3 s3.
  destruct (evolveTestsPassed_green s r1 t1 Ht Hs Hc H1)
    as (Ht1 & Hs1 & Hc1 & _ & Hk1 & _).
  destruct (evolveTestsPassed_green _ r2 t2 Ht1 Hs1 Hc1 H2)
    as (Ht2 & Hs2 & Hc2 & _ & Hk2 & _).
  destruct (evolveTestsPassed_green _ r3 t3 Ht2 Hs2 Hc2 H3)
    as (_ & _ & _ & Hscore & Hk3 & Hconv).
  fold s3 in Hscore, Hk3, Hconv.
  rewrite Hk2, Hk1, Hk in Hk3, Hconv.
  repeat split; assumption.
Qed.

Lemma convergence_in_three_ticks_witness :
  let s := Sample.state implementation 7 [] Sample.green in
  let s3 :=
    evolve (evolve (evolve s (Event.TestsPassed Sample.passed95 1))
                   (Event.TestsPassed Sample.passed95 2))
           (Event.TestsPassed Sample.passed95 3) in
  (Confidence.overallScore (State.confidence s3) == 1)%Q
  /\ State.convergenceStreak s3 = 3
  /\ State.converged s3 = true.
Proof.
  apply (convergence_in_three_ticks
           (Sample.state implementation 7 [] Sample.green)
           Sample.passed95 Sample.passed95 Sample.passed95 1 2 3);
    reflexivity.
Defined.

(** The same run through [replay], and the states on the way: the first two
    events do not converge. *)
Example replay_three_ticks :
  let s := Sample.state implementation 7 [] Sample.green in
  let e t := Event.TestsPassed Sample.passed95 t in
  State.converged (replay [e 1] s) = false
  /\ State.converged (replay [e 1; e 2] s) = false
  /\ State.converged (replay [e 1; e 2; e 3] s) = true
  /\ State.lastActivityAt (replay [e 1; e 2; e 3] s) = 3.
Proof. repeat split. Qed.

(** ** Checkpoint approval is idempotent *)

Lemma pendingIdDiffers_None (s : State.t) (c : string) :
  State.pendingCheckpoint s = None -> pendingIdDiffers s c = true.
Proof. intros H. unfold pendingIdDiffers. now rewrite H. Qed.


(** C7. Two successive [CheckpointApproved] events with the same id: the
    second leaves the state produced by the first unchanged. *)
Theorem evolve_CheckpointApproved_twice
    (s : State.t) (c : string) (t1 t2 : Date) :
  let s1 := evolve s (Event.CheckpointApproved c t1) in
  evolve s1 (Event.CheckpointApproved c t2) = s1.
Proof.
  intros s1. subst s1. cbn [evolve].
  unfold evolveCheckpointApproved at 2 3.
  destruct (pendingIdDiffers s c) eqn:Hd.
  - unfold evolveCheckpointApproved. now rewrite Hd.
  - unfold evolveCheckpointApproved.
    rewrite pendingIdDiffers_None; reflexivity.
Qed.

(** The idempotence is not vacuous: with the checkpoint pending, the first
    event moves it to [lastApprovedCheckpoint], and the second changes
    nothing, not even [lastActivityAt]. *)
Example approve_twice_pending :
  let s := withCheckpoints (Sample.state design 1 [] Sample.green)
             (Some (Sample.summary "c1")) None 0 in
  let s1 := evolve s (Event.CheckpointApproved "c1" 10) in
  State.lastApprovedCheckpoint s1 = Some (Sample.summary "c1")
  /\ State.pendingCheckpoint s1 = None
  /\ State.lastActivityAt s1 = 10
  /\ State.lastActivityAt (evolve s1 (Event.CheckpointApproved "c1" 20)) = 10.
Proof. repeat split. Qed.

(* ------------------------------------------------------------------ *)
(** ** What [evolve] does to single fields *)

(** A checkpoint event whose id is not the pending one is dropped: the
    state comes back as it was. *)
Lemma evolve_checkpoint_mismatch (s : State.t) (c r : string) (ts : Date) :
  pendingIdDiffers s c = true ->
  evolve s (Event.CheckpointApproved c ts) = s
  /\ evolve s (Event.CheckpointRejected c r ts) = s.
Proof.
  intros H. cbn [evolve].
  unfold evolveCheckpointApproved, evolveCheckpointRejected.
  now rewrite H.
Qed.

(** [turn] is written by two handlers only. *)
Lemma evolve_turn (s : State.t) (e : Event.t) :
  State.turn (evolve s e) =
    match e with
    | Event.Initialized _ _ _ _ => 0
    | Event.TurnStarted n _ _ => n
    | _ => State.turn s
    end.
Proof. evolve_cases e; reflexivity. Qed.

(** [phase] is written by three handlers only. *)
Lemma evolve_phase (s : State.t) (e : Event.t) :
  State.phase (evolve s e) =
    match e with
    | Event.Initialized _ _ _ _ => requirements
    | Event.PhaseStarted p _ _ => p
    | Event.PhaseCompleted p _ _ =>
        nullish (at_index PHASE_ORDER (indexOf PHASE_ORDER p + 1)) p
    | _ => State.phase s
    end.
Proof. evolve_cases e; reflexivity. Qed.

Lemma indexOf_PHASE_ORDER_range (p : Phase) :
  0 <= indexOf PHASE_ORDER p <= 5.
Proof. destruct p; cbv; split; discriminate. Qed.

(** The successor [PhaseCompleted] computes is one step ahead, and
    [verification] is its own successor. *)
Lemma nextPhase_index (p : Phase) :
  indexOf PHASE_ORDER
    (nullish (at_index PHASE_ORDER (indexOf PHASE_ORDER p + 1)) p)
  = Z.min (indexOf PHASE_ORDER p + 1) 5.
Proof. destruct p; reflexivity. Qed.

(** ** Turn counter *)

(** C3, as written, fails: [TurnStarted] overwrites the counter with the
    event's. *)
Lemma evolve_turn_can_decrease :
  let s := Sample.state implementation 5 [] Sample.green in
  ~ (State.turn s
     <= State.turn (evolve s (Event.TurnStarted 3 implementation 1))).
Proof. cbv. intros H. now apply H. Qed.

(** [Initialized] resets it as well. *)
Example evolve_Initialized_resets_turn :
  State.turn
    (evolve (Sample.state implementation 5 [] Sample.green)
            (Event.Initialized "again" [] [] 1)) = 0.
Proof. reflexivity. Qed.

(** C3, amended. [Initialized] sets the turn counter to 0, [TurnStarted]
    sets it to the turn the event carries, and every other event leaves it
    unchanged.  So the counter does not decrease across [evolve] unless the
    event is [Initialized] on a state whose turn is positive or
    [TurnStarted] carrying a turn below the state's. *)
Theorem evolve_turn_nondecreasing (s : State.t) (e : Event.t) :
  (forall prompt checklist budgets ts,
     e = Event.Initialized prompt checklist budgets ts ->
     State.turn (evolve s e) = 0)
  /\ (forall n p ts,
        e = Event.TurnStarted n p ts -> State.turn (evolve s e) = n)
  /\ (Event.kind e <> "Initialized" -> Event.kind e <> "TurnStarted" ->
      State.turn (evolve s e) = State.turn s)
  /\ ((Event.kind e = "Initialized" -> State.turn s <= 0) ->
      (forall n p ts, e = Event.TurnStarted n p ts -> State.turn s <= n) ->
      State.turn s <= State.turn (evolve s e)).
Proof.
  rewrite evolve_turn. repeat split.
  - intros prompt checklist budgets ts ->. reflexivity.
  - intros n p ts ->. reflexivity.
  - intros Hi Ht. destruct e; try reflexivity; [now elim Hi | now elim Ht].
  - intros Hinit Hturn.
    destruct e; try apply Z.le_refl.
    + apply Hinit. reflexivity.
    + eapply Hturn. reflexivity.
Qed.

Lemma evolve_turn_nondecreasing_witness :
  let s := Sample.state implementation 5 [] Sample.green in
  State.turn s <= State.turn (evolve s (Event.TurnStarted 6 implementation 1))
  /\ State.turn (evolve s (Event.TestsFailed Sample.failed 2)) = 5.
Proof.
  destruct (evolve_turn_nondecreasing
              (Sample.state implementation 5 [] Sample.green)
              (Event.TurnStarted 6 implementation 1))
    as (_ & _ & _ & Hle).
  destruct (evolve_turn_nondecreasing
              (Sample.state implementation 5 [] Sample.green)
              (Event.TestsFailed Sample.failed 2))
    as (_ & _ & Hsame & _).
  split.
  - apply Hle.
    + cbn. discriminate.
    + intros n p ts H. injection H as <- _ _. cbn. lia.
  - apply Hsame; cbn; discriminate.
Defined.

(** ** Phase order *)

(** C4, as written, fails: [PhaseStarted] installs whatever phase the event
    names. *)
Lemma evolve_phase_can_regress :
  let s := Sample.state verification 5 [] Sample.green in
  let e := Event.PhaseStarted requirements
             (Sample.budget requirements 50 0) 1 in
  ~ (indexOf PHASE_ORDER (State.phase s)
     <= indexOf PHASE_ORDER (State.phase (evolve s e))).
Proof. cbv. intros H. now apply H. Qed.

(** [PhaseCompleted] advances from the event's phase, not the state's. *)
Example evolve_PhaseCompleted_regresses :
  State.phase
    (evolve (Sample.state verification 5 [] Sample.green)
            (Event.PhaseCompleted requirements 3 1)) = design.
Proof. reflexivity. Qed.

(** C4, amended. [Initialized] sets the phase to [requirements],
    [PhaseStarted] sets it to the phase the event names, [PhaseCompleted]
    sets it to the successor in [PHASE_ORDER] of the phase the event names
    ([verification] being its own successor), and every other event leaves
    it unchanged.  So the index of the phase does not decrease across
    [evolve] provided an [Initialized] event arrives in phase
    [requirements], a [PhaseStarted] event names the current phase or a
    later one, and a [PhaseCompleted] event names a phase at most one step
    before the current one. *)
Theorem evolve_phase_nonregressing (s : State.t) (e : Event.t) :
  (forall prompt checklist budgets ts,
     e = Event.Initialized prompt checklist budgets ts ->
     State.phase (evolve s e) = requirements)
  /\ (forall p b ts,
        e = Event.PhaseStarted p b ts -> State.phase (evolve s e) = p)
  /\ (forall p n ts,
        e = Event.PhaseCompleted p n ts ->
        State.phase (evolve s e)
        = nullish (at_index PHASE_ORDER (indexOf PHASE_ORDER p + 1)) p
        /\ indexOf PHASE_ORDER (State.phase (evolve s e))
           = Z.min (indexOf PHASE_ORDER p + 1)
                   (indexOf PHASE_ORDER verification))
  /\ (Event.kind e <> "Initialized" -> Event.kind e <> "PhaseStarted" ->
      Event.kind e <> "PhaseCompleted" ->
      State.phase (evolve s e) = State.phase s)
  /\ ((Event.kind e = "Initialized" -> State.phase s = requirements) ->
      (forall p b ts, e = Event.PhaseStarted p b ts ->
         indexOf PHASE_ORDER (State.phase s) <= indexOf PHASE_ORDER p) ->
      (forall p n ts, e = Event.PhaseCompleted p n ts ->
         indexOf PHASE_ORDER (State.phase s) <= indexOf PHASE_ORDER p + 1) ->
      indexOf PHASE_ORDER (State.phase s)
      <= indexOf PHASE_ORDER (State.phase (evolve s e))).
Proof.
  rewrite evolve_phase. split; [| split; [| split; [| split]]].
  - intros prompt checklist budgets ts ->. reflexivity.
  - intros p b ts ->. reflexivity.
  - intros p n ts ->. split; [reflexivity | apply nextPhase_index].
  - intros Hi Hs Hc.
    destruct e; try reflexivity; [now elim Hi | now elim Hs | now elim Hc].
  - intros Hinit Hstart Hdone.
    destruct e; try apply Z.le_refl.
    + rewrite Hinit by reflexivity. apply Z.le_refl.
    + eapply Hstart. reflexivity.
    + rewrite nextPhase_index.
      specialize (Hdone _ _ _ eq_refl).
      pose proof (indexOf_PHASE_ORDER_range (State.phase s)).
      change (indexOf PHASE_ORDER verification) with 5 in *. lia.
Qed.

Lemma evolve_phase_nonregressing_witness :
  let s := Sample.state implementation 5 [] Sample.green in
  let e := Event.PhaseCompleted design 4 1 in
  State.phase (evolve s e) = implementation
  /\ indexOf PHASE_ORDER (State.phase s)
     <= indexOf PHASE_ORDER (State.phase (evolve s e)).
Proof.
  split; [reflexivity |].
  apply (evolve_phase_nonregressing
           (Sample.state implementation 5 [] Sample.green)
           (Event.PhaseCompleted design 4 1)).
  - cbn. discriminate.
  - intros p b ts H. discriminate H.
  - intros p n ts H. injection H as <- _ _. cbn. lia.
Defined.

(** ** Last activity *)




(* ------------------------------------------------------------------ *)
(** ** The convergence invariant *)

Lemma hasConverged_true (s : State.t) :
  hasConverged s = true <->
  (0.9 <= Confidence.overallScore (State.confidence s))%Q
  /\ 3 <= State.convergenceStreak s.
Proof.
  unfold hasConverged, CONVERGENCE_THRESHOLD, CONVERGENCE_STREAK_REQUIRED.
  rewrite andb_true_iff, Qle_bool_iff, Z.leb_le. reflexivity.
Qed.

(** A state whose [converged] flag was just computed by [hasConverged] on
    its own score and streak satisfies the invariant. *)
Lemma withConfidence_recomputed (s : State.t) (c : Confidence.t) (k : Z)
    (b : bool) (t0 ts : Date) :
  convergenceInvariant
    (withConfidence s c k (hasConverged (withConfidence s c k b t0)) ts).
Proof.
  unfold convergenceInvariant.
  cbn [withConfidence State.converged State.confidence
       State.convergenceStreak].
  intros H. apply hasConverged_true in H. exact H.
Qed.

(** C5, as written, fails: [ConvergenceReached] sets [converged] whatever
    the score it carries and whatever the streak. *)
Lemma evolve_breaks_convergenceInvariant :
  let s := Sample.state verification 9 [] Sample.green in
  let e := Event.ConvergenceReached 0.5 9 1 in
  convergenceInvariant s /\ ~ convergenceInvariant (evolve s e).
Proof.
  split.
  - intros H. discriminate H.
  - intros H. destruct (H eq_refl) as [_ Hk]. cbv in Hk. now apply Hk.
Qed.

Lemma forallb_completed_after (itemId evidence : string) (ts : Date)
    (l : list ChecklistItem.t) :
  (forall item, In item l -> ChecklistItem.id item <> itemId ->
                ChecklistItem.completed item = true) ->
  forallb ChecklistItem.completed
    (map (fun item =>
            if String.eqb (ChecklistItem.id item) itemId
            then {| ChecklistItem.id := ChecklistItem.id item;
                    ChecklistItem.phase := ChecklistItem.phase item;
                    ChecklistItem.description :=
                      ChecklistItem.description item;
                    ChecklistItem.completed := true;
                    ChecklistItem.evidence := Some evidence;
                    ChecklistItem.completedAt := Some ts |}
            else item) l) = true.
Proof.
  intros H. induction l as [| x l IH]; [reflexivity |].
  cbn [map forallb]. rewrite IH by (intros i Hi; apply H; now right).
  rewrite andb_true_r.
  destruct (String.eqb (ChecklistItem.id x) itemId) eqn:E; [reflexivity |].
  apply H; [now left | now apply String.eqb_neq].
Qed.

(** C5, amended. [evolve] preserves
    [converged => overallScore >= 0.9 /\ convergenceStreak >= 3] provided
    that
    - a [ConvergenceReached] event carries [finalConfidence >= 0.9] and
      meets a streak of at least 3 (the handler sets [converged] and
      overwrites the score whatever they are);
    - a [TestsFailed] or [TypeCheckFailed] event meets a state that is not
      converged (the handlers reset the streak and keep [converged]);
    - a [TypeCheckPassed] event, if it meets a converged state, meets one
      with [schemaValid], [testsPass] and [checklistComplete] true and
      coverage at least 48 (the handler recomputes the score and keeps
      [converged]);
    - a [ChecklistItemCompleted] event, if it meets a converged state, meets
      one with [typesSafe], [schemaValid] and [testsPass] true, coverage at
      least 48 and every item other than the one named completed.
    Every other event preserves it as it is, and [TestsPassed] and
    [ConfidenceUpdated], which recompute [converged] with [hasConverged],
    establish it whatever the state they are applied to. *)
Theorem evolve_preserves_convergenceInvariant (s : State.t) (e : Event.t) :
  (convergenceInvariant s ->
   (forall fc n ts, e = Event.ConvergenceReached fc n ts ->
      (0.9 <= fc)%Q /\ 3 <= State.convergenceStreak s) ->
   (isFailure e = true -> State.converged s = false) ->
   (forall ts, e = Event.TypeCheckPassed ts ->
      State.converged s = true ->
      Confidence.schemaValid (State.confidence s) = true
      /\ Confidence.testsPass (State.confidence s) = true
      /\ Confidence.checklistComplete (State.confidence s) = true
      /\ (48 <= Confidence.coverage (State.confidence s))%Q) ->
   (forall itemId evidence ts,
      e = Event.ChecklistItemCompleted itemId evidence ts ->
      State.converged s = true ->
      Confidence.typesSafe (State.confidence s) = true
      /\ Confidence.schemaValid (State.confidence s) = true
      /\ Confidence.testsPass (State.confidence s) = true
      /\ (48 <= Confidence.coverage (State.confidence s))%Q
      /\ (forall item, In item (State.checklist s) ->
                       ChecklistItem.id item <> itemId ->
                       ChecklistItem.completed item = true)) ->
   convergenceInvariant (evolve s e))
  /\ (Event.kind e = "TestsPassed" \/ Event.kind e = "ConfidenceUpdated" ->
      convergenceInvariant (evolve s e)).
Proof.
  split.
  - intros Hinv Hreached Hfail Htcp Hcic.
    evolve_cases e; try exact Hinv.
    + (* ChecklistItemCompleted *)
      intros Hc. cbn in Hc.
      destruct (Hcic _ _ _ eq_refl Hc) as (Ht & Hs & Hp & Hv & Hitems).
      split; [| exact (proj2 (Hinv Hc))].
      cbn -[calculateOverallConfidence Qle].
      apply calculateOverallConfidence_reaches; cbn; try assumption.
      now apply forallb_completed_after.
    + apply withConfidence_recomputed.
    + specialize (Hfail eq_refl). intros Hc. cbn in Hc. congruence.
    + (* TypeCheckPassed *)
      intros Hc. cbn in Hc.
      destruct (Htcp _ eq_refl Hc) as (Hs & Hp & Hk & Hv).
      split; [| exact (proj2 (Hinv Hc))].
      cbn -[calculateOverallConfidence Qle].
      apply calculateOverallConfidence_reaches; cbn;
        try assumption; reflexivity.
    + specialize (Hfail eq_refl). intros Hc. cbn in Hc. congruence.
    + apply withConfidence_recomputed.
    + intros _. exact (Hreached _ _ _ eq_refl).
  - intros [H | H]; destruct e; try discriminate H;
      apply withConfidence_recomputed.
Qed.

Lemma evolve_preserves_convergenceInvariant_witness :
  let s := withConfidence (Sample.state verification 9 [] Sample.green)
             (confidenceAfterTests
                (Sample.state verification 9 [] Sample.green)
                true Sample.passed95)
             3 true 0 in
  State.converged s = true
  /\ convergenceInvariant (evolve s (Event.TypeCheckPassed 1)).
Proof.
  split; [reflexivity |].
  apply (proj1 (evolve_preserves_convergenceInvariant
                  (withConfidence
                     (Sample.state verification 9 [] Sample.green)
                     (confidenceAfterTests
                        (Sample.state verification 9 [] Sample.green)
                        true Sample.passed95)
                     3 true 0)
                  (Event.TypeCheckPassed 1))).
  - intros _. cbn. split; [| lia]. unfold calculateOverallConfidence. cbn.
    discriminate.
  - intros fc n ts H. discriminate H.
  - intros H. discriminate H.
  - intros ts _ _. cbn. repeat split. discriminate.
  - intros itemId evidence ts H. discriminate H.
Defined.

(** [TestsPassed] and [ConfidenceUpdated] establish the invariant whatever
    the state they start from. *)
Lemma evolve_recomputes_convergenceInvariant (s : State.t) (e : Event.t) :
  Event.kind e = "TestsPassed" \/ Event.kind e = "ConfidenceUpdated" ->
  convergenceInvariant (evolve s e).
Proof.
  intros [H | H]; destruct e; try discriminate H;
    apply withConfidence_recomputed.
Qed.

(** [TestsFailed] on a converged state: the streak is reset and the score
    capped, and [converged] is carried over. *)
Example evolve_TestsFailed_keeps_converged :
  let s := withConfidence (Sample.state verification 9 [] Sample.green)
             (confidenceAfterTests
                (Sample.state verification 9 [] Sample.green)
                true Sample.passed95)
             3 true 0 in
  let s' := evolve s (Event.TestsFailed Sample.failed 1) in
  hasConverged s = true
  /\ State.converged s' = true
  /\ State.convergenceStreak s' = 0
  /\ (Confidence.overallScore (State.confidence s') == 0.3)%Q.
Proof. repeat split. Qed.

(* ------------------------------------------------------------------ *)
(** ** The decider: budget enforcement *)

Lemma Phase_eqb_eq (p q : Phase) : Phase_eqb p q = true <-> p = q.
Proof. destruct p, q; cbn; split; congruence. Qed.

Lemma decideStartTurn_exhausted (env : Ambient.t) (s : State.t)
    (b : TurnBudget.t) :
  hasConverged s = false ->
  currentBudget s = Some b ->
  TurnBudget.maxTurns b <= TurnBudget.usedTurns b ->
  decideStartTurn env s =
    [ Effect.Log warn "Budget exhausted for phase"
        [("phase", JsString (phaseName (State.phase s)));
         ("used", JsNumber (inject_Z (TurnBudget.usedTurns b)))];
      Effect.RecordMetric "budget_exhausted" 1
        [("phase", phaseName (State.phase s))] ].
Proof.
  intros Hconv Hfind Hle.
  unfold decideStartTurn. rewrite Hconv.
  cbv zeta. rewrite Hfind.
  cbn [budgetExhausted].
  apply Z.leb_le in Hle. rewrite Hle. reflexivity.
Qed.

(** C6, as written, fails: when the list holds two entries for the current
    phase, only the first is consulted, and an exhausted second entry does
    not stop the turn. *)
Lemma decide_StartTurn_ignores_later_entries :
  let s := Sample.state implementation 1
             [ Sample.budget implementation 5 0;
               Sample.budget implementation 1 1 ]
             Sample.green in
  hasConverged s = false
  /\ (exists b, In b (State.budgets s)
                /\ TurnBudget.phase b = State.phase s
                /\ TurnBudget.maxTurns b <= TurnBudget.usedTurns b)
  /\ existsb isInvokeLLM (decide Sample.env Command.StartTurn s) = true.
Proof.
  repeat split.
  exists (Sample.budget implementation 1 1).
  repeat split; [right; left; reflexivity | discriminate].
Qed.

(** C6, amended. When [hasConverged] is false and the first entry of
    [budgets] for the current phase has [usedTurns >= maxTurns], [StartTurn]
    yields exactly a warn-level log and a [budget_exhausted] metric, hence no
    [InvokeLLM]. *)
Theorem decide_StartTurn_budget_exhausted
    (env : Ambient.t) (s : State.t) (b : TurnBudget.t) :
  hasConverged s = false ->
  currentBudget s = Some b ->
  TurnBudget.maxTurns b <= TurnBudget.usedTurns b ->
  decide env Command.StartTurn s =
    [ Effect.Log warn "Budget exhausted for phase"
        [("phase", JsString (phaseName (State.phase s)));
         ("used", JsNumber (inject_Z (TurnBudget.usedTurns b)))];
      Effect.RecordMetric "budget_exhausted" 1
        [("phase", phaseName (State.phase s))] ]
  /\ existsb isInvokeLLM (decide env Command.StartTurn s) = false.
Proof.
  intros Hconv Hfind Hle. cbn [decide].
  rewrite (decideStartTurn_exhausted env s b Hconv Hfind Hle).
  split; reflexivity.
Qed.

Lemma decide_StartTurn_budget_exhausted_witness :
  let s := Sample.state implementation 1
             [ Sample.budget design 100 3;
               Sample.budget implementation 1 1 ]
             Sample.green in
  existsb isInvokeLLM (decide Sample.env Command.StartTurn s) = false.
Proof.
  apply (decide_StartTurn_budget_exhausted Sample.env
           (Sample.state implementation 1
              [ Sample.budget design 100 3;
                Sample.budget implementation 1 1 ]
              Sample.green)
           (Sample.budget implementation 1 1)).
  - reflexivity.
  - reflexivity.
  - cbn. lia.
Defined.

(** With at most one entry per phase, the entry of the current phase is the
    one consulted, wherever it sits in the list. *)
Lemma currentBudget_unique (s : State.t) (b : TurnBudget.t) :
  NoDup (map TurnBudget.phase (State.budgets s)) ->
  In b (State.budgets s) ->
  TurnBudget.phase b = State.phase s ->
  currentBudget s = Some b.
Proof.
  unfold currentBudget. intros Hnd Hin Hp.
  induction (State.budgets s) as [| x l IH]; [contradiction |].
  cbn [map] in Hnd. inversion Hnd as [| ? ? Hx Hl]; subst.
  cbn [find]. destruct Hin as [-> | Hin].
  - rewrite Hp. now rewrite (proj2 (Phase_eqb_eq _ _) eq_refl).
  - destruct (Phase_eqb (TurnBudget.phase x) (State.phase s)) eqn:E.
    + apply Phase_eqb_eq in E. exfalso. apply Hx.
      rewrite E, <- Hp. now apply in_map.
    + now apply IH.
Qed.

Lemma decideStartTurn_exhausted_unique (env : Ambient.t) (s : State.t)
    (b : TurnBudget.t) :
  NoDup (map TurnBudget.phase (State.budgets s)) ->
  hasConverged s = false ->
  In b (State.budgets s) ->
  TurnBudget.phase b = State.phase s ->
  TurnBudget.maxTurns b <= TurnBudget.usedTurns b ->
  existsb isInvokeLLM (decideStartTurn env s) = false.
Proof.
  intros Hnd Hconv Hin Hp Hle.
  rewrite (decideStartTurn_exhausted env s b Hconv
             (currentBudget_unique s b Hnd Hin Hp) Hle).
  reflexivity.
Qed.

(** ** The decider: advancing from the last phase *)

(** C8, as written, fails: the single log is at level info. *)
Lemma decide_AdvancePhase_final_not_warn :
  let s := Sample.state verification 9 [] Sample.green in
  ~ (exists message context,
       decide Sample.env Command.AdvancePhase s =
         [ Effect.Log warn message context ]).
Proof. cbv zeta. intros (m & c & H). discriminate H. Qed.

(** C8, amended. In phase [verification], [AdvancePhase] yields exactly one
    effect, an info-level log. *)
Theorem decide_AdvancePhase_final (env : Ambient.t) (s : State.t) :
  State.phase s = verification ->
  decide env Command.AdvancePhase s =
    [ Effect.Log info "Already at final phase, checking convergence"
        [("phase", JsString "verification")] ].
Proof.
  intros H. cbn [decide]. unfold decideAdvancePhase. rewrite H. reflexivity.
Qed.

Lemma decide_AdvancePhase_final_witness :
  length (decide Sample.env Command.AdvancePhase
            (Sample.state verification 9 [] Sample.green)) = 1%nat.
Proof.
  rewrite (decide_AdvancePhase_final Sample.env
             (Sample.state verification 9 [] Sample.green) eq_refl).
  reflexivity.
Defined.

(** [verification] is the only phase with no successor. *)
Lemma final_phase_iff (p : Phase) :
  at_index PHASE_ORDER (indexOf PHASE_ORDER p + 1) = None <->
  p = verification.
Proof. destruct p; cbv; split; congruence. Qed.

(* ------------------------------------------------------------------ *)
(** ** The decider never asks for persistence *)

Lemma noPersistence_app (l1 l2 : list Effect.t) :
  noPersistence (l1 ++ l2) = noPersistence l1 && noPersistence l2.
Proof. apply forallb_app. Qed.

Lemma toolUseEffects_cases (u : ToolUse.t) :
  toolUseEffects u = []
  \/ toolUseEffects u
     = [ Effect.WriteFile (getProperty (ToolUse.input u) "path")
                          (getProperty (ToolUse.input u) "content") ].
Proof.
  unfold toolUseEffects.
  destruct (String.eqb _ _); [| now left].
  cbv zeta. destruct (_ && _); [now right | now left].
Qed.

Lemma toolUseEffects_noPersistence (l : list ToolUse.t) :
  noPersistence (flat_map toolUseEffects l) = true.
Proof.
  induction l as [| u l IH]; [reflexivity |].
  cbn [flat_map]. rewrite noPersistence_app, IH, andb_true_r.
  destruct (toolUseEffects_cases u) as [-> | ->]; reflexivity.
Qed.

Lemma decide_noPersistence (env : Ambient.t) (c : Command.t) (s : State.t) :
  noPersistence (decide env c s) = true.
Proof.
  destruct c; cbn [decide].
  - unfold decideInitialize. destruct (_ || _); reflexivity.
  - unfold decideAdvancePhase.
    destruct (at_index _ _); [| reflexivity].
    destruct (negb _); reflexivity.
  - unfold decideStartTurn.
    destruct (hasConverged s); [reflexivity |].
    cbv zeta. destruct (budgetExhausted _); reflexivity.
  - unfold decideProcessLLMResponse. cbv zeta.
    destruct (_ || _);
      repeat rewrite noPersistence_app;
      rewrite toolUseEffects_noPersistence; reflexivity.
  - unfold decideRecordArtifact. cbv zeta. destruct (find _ _); reflexivity.
  - unfold decideRecordTestResult. cbv zeta.
    destruct (TestResult.coverage result); reflexivity.
  - unfold decideRecordTypeCheck. cbv zeta.
    destruct errors; [destruct (negb passed) |]; reflexivity.
  - unfold decideCompleteChecklistItem.
    destruct (find _ _) as [item |]; [| reflexivity].
    destruct (ChecklistItem.completed item); reflexivity.
  - unfold decideRequestCheckpoint.
    destruct (State.pendingCheckpoint s); reflexivity.
  - unfold decideApproveCheckpoint.
    destruct (State.pendingCheckpoint s); reflexivity.
  - unfold decideRejectCheckpoint.
    destruct (State.pendingCheckpoint s); reflexivity.
  - reflexivity.
  - reflexivity.
Qed.

(** Every branch of every handler starts its list with a log or a span. *)
Lemma decide_nonempty (env : Ambient.t) (c : Command.t) (s : State.t) :
  decide env c s <> [].
Proof.
  destruct c; cbn [decide].
  - unfold decideInitialize. destruct (_ || _); discriminate.
  - unfold decideAdvancePhase.
    destruct (at_index _ _); [| discriminate].
    destruct (negb _); discriminate.
  - unfold decideStartTurn.
    destruct (hasConverged s); [discriminate |].
    cbv zeta. destruct (budgetExhausted _); discriminate.
  - unfold decideProcessLLMResponse. cbv zeta.
    destruct (_ || _); discriminate.
  - unfold decideRecordArtifact. cbv zeta. destruct (find _ _); discriminate.
  - unfold decideRecordTestResult. cbv zeta.
    destruct (TestResult.coverage result); discriminate.
  - unfold decideRecordTypeCheck. cbv zeta.
    destruct errors; [destruct (negb passed) |]; discriminate.
  - unfold decideCompleteChecklistItem.
    destruct (find _ _) as [item |]; [| discriminate].
    destruct (ChecklistItem.completed item); discriminate.
  - unfold decideRequestCheckpoint.
    destruct (State.pendingCheckpoint s); discriminate.
  - unfold decideApproveCheckpoint.
    destruct (State.pendingCheckpoint s); discriminate.
  - unfold decideRejectCheckpoint.
    destruct (State.pendingCheckpoint s); discriminate.
  - discriminate.
  - discriminate.
Qed.

(** C10. For every command and state, the effect list of [decide] is not
    empty and holds neither a [PersistEvent] nor a [CreateSnapshot]. *)
Theorem decide_nonempty_no_persistence
    (env : Ambient.t) (c : Command.t) (s : State.t) :
  decide env c s <> []
  /\ (forall event, ~ In (Effect.PersistEvent event) (decide env c s))
  /\ (forall state atEventIndex,
        ~ In (Effect.CreateSnapshot state atEventIndex) (decide env c s)).
Proof.
  pose proof (decide_noPersistence env c s) as H.
  unfold noPersistence in H. rewrite forallb_forall in H.
  split; [apply decide_nonempty |].
  split; intros; intros Hin; apply H in Hin; discriminate Hin.
Qed.

(* ------------------------------------------------------------------ *)
(** ** Scenarios *)

(** Fresh session: [Initialize] on the initial state asks for one LLM call
    with [maxTokens = 4000], after a log and the root span. *)
Example scenario_fresh_init :
  exists prompt systemPrompt,
    decide Sample.env (Command.Initialize "hello" None)
           (createInitialState 0 "hello") =
      [ Effect.Log info "Initializing Turbine session"
          [("promptLength", JsNumber 5)];
        Effect.StartSpan "turbine.session" [("prompt", JsString "hello")];
        Effect.InvokeLLM prompt systemPrompt 4000 None ]
    /\ length (State.budgets (createInitialState 0 "hello")) = 6%nat.
Proof. do 2 eexists. split; reflexivity. Qed.

(** Budget enforcement: phase [implementation], budget [{max=1, used=1}]. *)
Example scenario_budget_enforcement :
  decide Sample.env Command.StartTurn
         (Sample.state implementation 1
            [Sample.budget implementation 1 1] Sample.green) =
    [ Effect.Log warn "Budget exhausted for phase"
        [("phase", JsString "implementation"); ("used", JsNumber 1)];
      Effect.RecordMetric "budget_exhausted" 1 [("phase", "implementation")] ].
Proof. reflexivity. Qed.

(** Checkpoint single-flight: with a checkpoint pending,
    [RequestCheckpoint] only warns. *)
Example scenario_checkpoint_single_flight :
  decide Sample.env Command.RequestCheckpoint
         (withCheckpoints (Sample.state design 1 [] Sample.green)
            (Some (Sample.summary "c1")) None 0) =
    [ Effect.Log warn "Checkpoint already pending"
        [("checkpointId", JsString "c1")] ].
Proof. reflexivity. Qed.

(** Failure resets the streak. *)
Example scenario_failure_resets_streak :
  let s := withConfidence (Sample.state testing 4 [] Sample.green)
             Sample.green 2 false 0 in
  let s' := evolve s (Event.TestsFailed Sample.failed 1) in
  State.convergenceStreak s' = 0
  /\ Confidence.testsPass (State.confidence s') = false
  /\ (Confidence.overallScore (State.confidence s') <= 0.3)%Q.
Proof. repeat split. discriminate. Qed.

(* ------------------------------------------------------------------ *)
(** * Further properties of the evolver *)

(** ** Replay *)

Lemma replay_app (es1 es2 : list Event.t) (s : State.t) :
  replay (es1 ++ es2) s = replay es2 (replay es1 s).
Proof. unfold replay. apply fold_left_app. Qed.

Lemma replayUntil_firstn (events : list Event.t) (s : State.t) (index : Z) :
  0 <= index ->
  replayUntil events s index = replay (firstn (Z.to_nat index) events) s.
Proof.
  intros Hi. unfold replayUntil, replay.
  destruct (index <? 0) eqn:E; [apply Z.ltb_lt in E; lia |].
  destruct (Z.le_ge_cases index (Z.of_nat (length events))) as [H | H].
  - now rewrite Z.min_l.
  - rewrite Z.min_r by lia. rewrite Nat2Z.id.
    rewrite 2 firstn_all2 by lia. reflexivity.
Qed.

(** X1. Replaying up to an index and then replaying the remaining events
    from the state reached gives the state of the full replay. *)
Theorem replayUntil_then_rest
    (events : list Event.t) (s : State.t) (index : Z) :
  0 <= index ->
  replay (skipn (Z.to_nat index) events) (replayUntil events s index)
  = replay events s.
Proof.
  intros Hi. rewrite replayUntil_firstn by exact Hi.
  rewrite <- replay_app, firstn_skipn. reflexivity.
Qed.

Lemma replayUntil_then_rest_witness :
  let e t := Event.TestsPassed Sample.passed95 t in
  let s := Sample.state testing 2 [] Sample.green in
  replay [e 3] (replayUntil [e 1; e 2; e 3] s 2) = replay [e 1; e 2; e 3] s.
Proof.
  apply (replayUntil_then_rest
           [ Event.TestsPassed Sample.passed95 1;
             Event.TestsPassed Sample.passed95 2;
             Event.TestsPassed Sample.passed95 3 ]
           (Sample.state testing 2 [] Sample.green) 2).
  lia.
Defined.

(** X2. A negative index counts from the end: [replayUntil] with [-k]
    replays all but the last [k] events, and nothing when [k] exceeds their
    number. *)
Theorem replayUntil_negative
    (events : list Event.t) (s : State.t) (k : nat) :
  (0 < k)%nat ->
  replayUntil events s (- Z.of_nat k)
  = replay (firstn (length events - k) events) s.
Proof.
  intros Hk. unfold replayUntil, replay.
  destruct (- Z.of_nat k <? 0) eqn:E; [| apply Z.ltb_ge in E; lia].
  f_equal. f_equal. lia.
Qed.

Lemma replayUntil_negative_witness :
  let e t := Event.TestsPassed Sample.passed95 t in
  let s := Sample.state testing 2 [] Sample.green in
  replayUntil [e 1; e 2; e 3] s (-1) = replay [e 1; e 2] s.
Proof.
  apply (replayUntil_negative
           [ Event.TestsPassed Sample.passed95 1;
             Event.TestsPassed Sample.passed95 2;
             Event.TestsPassed Sample.passed95 3 ]
           (Sample.state testing 2 [] Sample.green) 1).
  lia.
Defined.

(** ** Debug replay *)

Lemma debugReplayFrom_spec (events : list Event.t) :
  forall (i : Z) (s : State.t),
    fst (debugReplayFrom i events s) = replay events s
    /\ map ReplayStep.event (snd (debugReplayFrom i events s)) = events
    /\ map ReplayStep.index (snd (debugReplayFrom i events s))
       = map (fun n => i + Z.of_nat n) (seq 0 (length events))
    /\ Forall (fun c => ReplayStep.stateAfter c
                        = evolve (ReplayStep.stateBefore c)
                                 (ReplayStep.event c))
              (snd (debugReplayFrom i events s))
    /\ (forall n c, nth_error (snd (debugReplayFrom i events s)) n = Some c ->
          ReplayStep.stateBefore c = replay (firstn n events) s).
Proof.
  induction events as [| e es IH]; intros i s.
  - cbn. repeat split; try constructor.
    intros n c H. destruct n; discriminate H.
  - cbn [debugReplayFrom].
    destruct (debugReplayFrom (i + 1) es (evolve s e)) as [final calls] eqn:E.
    specialize (IH (i + 1) (evolve s e)). rewrite E in IH.
    cbn [fst snd] in IH. destruct IH as (Hf & He & Hi & Hs & Hb).
    cbn [fst snd map length seq]. repeat split.
    + exact Hf.
    + now rewrite He.
    + rewrite Hi, <- seq_shift, map_map. f_equal; [cbn; lia |].
      apply map_ext. intros n. lia.
    + constructor; [reflexivity | exact Hs].
    + intros n c H. destruct n as [| n].
      * injection H as <-. reflexivity.
      * cbn [nth_error] in H. rewrite (Hb n c H). reflexivity.
Qed.

(** X3. [debugReplay] ends in the state [replay] computes and calls the
    logger once per event, in order, with indices 0, 1, ...; at each call
    [stateBefore] is the replay of the events before it and [stateAfter] is
    [evolve] of [stateBefore] and the event. *)
Theorem debugReplay_spec (events : list Event.t) (s : State.t) :
  fst (debugReplay events s) = replay events s
  /\ map ReplayStep.event (snd (debugReplay events s)) = events
  /\ map ReplayStep.index (snd (debugReplay events s))
     = map Z.of_nat (seq 0 (length events))
  /\ (forall n c, nth_error (snd (debugReplay events s)) n = Some c ->
        ReplayStep.stateBefore c = replayUntil events s (Z.of_nat n)
        /\ ReplayStep.stateAfter c
           = evolve (ReplayStep.stateBefore c) (ReplayStep.event c)).
Proof.
  unfold debugReplay.
  destruct (debugReplayFrom_spec events 0 s) as (Hf & He & Hi & Hs & Hb).
  repeat split; try assumption.
  - rewrite (Hb n c H), replayUntil_firstn by lia.
    now rewrite Nat2Z.id.
  - rewrite Forall_forall in Hs. apply Hs.
    eapply nth_error_In. exact H.
Qed.

(** ** The convergence streak *)

Lemma evolve_streak (s : State.t) (e : Event.t) :
  State.convergenceStreak (evolve s e) =
    if isTestsPassed e then State.convergenceStreak s + 1
    else if isFailure e then 0
    else State.convergenceStreak s.
Proof. evolve_cases e; reflexivity. Qed.

Lemma replay_streak_no_failure (es : list Event.t) :
  forall s : State.t,
    forallb (fun e => negb (isFailure e)) es = true ->
    State.convergenceStreak (replay es s)
    = State.convergenceStreak s
      + Z.of_nat (length (filter isTestsPassed es)).
Proof.
  induction es as [| e es IH]; intros s H.
  - cbn. lia.
  - cbn [forallb] in H. apply andb_true_iff in H as [He Hes].
    unfold replay in *. cbn [fold_left filter].
    rewrite IH by exact Hes. rewrite evolve_streak.
    apply negb_true_iff in He. rewrite He.
    destruct (isTestsPassed e); cbn [length]; lia.
Qed.

(** X4. After a [TestsFailed] or [TypeCheckFailed] event the streak is the
    number of [TestsPassed] events that follow, as long as no further
    failure occurs; so convergence after a failure takes at least three
    later [TestsPassed] events. *)
Theorem streak_after_failure
    (before after : list Event.t) (failure : Event.t) (s : State.t) :
  isFailure failure = true ->
  forallb (fun e => negb (isFailure e)) after = true ->
  let s' := replay (before ++ failure :: after) s in
  State.convergenceStreak s' = Z.of_nat (length (filter isTestsPassed after))
  /\ (hasConverged s' = true ->
      (3 <= length (filter isTestsPassed after))%nat).
Proof.
  intros Hf Ha s'.
  assert (Hk : State.convergenceStreak s'
               = Z.of_nat (length (filter isTestsPassed after))).
  { subst s'. rewrite replay_app.
    change (replay (failure :: after) (replay before s))
      with (replay after (evolve (replay before s) failure)).
    rewrite replay_streak_no_failure by exact Ha.
    rewrite evolve_streak, Hf.
    destruct failure; try discriminate Hf; cbn; lia. }
  split; [exact Hk |].
  intros Hc. apply hasConverged_true in Hc as [_ Hc]. lia.
Qed.

Lemma streak_after_failure_witness :
  let es := [ Event.TestsPassed Sample.passed95 1;
              Event.TestsFailed Sample.failed 2;
              Event.TestsPassed Sample.passed95 3;
              Event.TypeCheckPassed 4;
              Event.TestsPassed Sample.passed95 5 ] in
  State.convergenceStreak
    (replay es (Sample.state testing 2 [] Sample.green)) = 2.
Proof.
  apply (streak_after_failure
           [ Event.TestsPassed Sample.passed95 1 ]
           [ Event.TestsPassed Sample.passed95 3;
             Event.TypeCheckPassed 4;
             Event.TestsPassed Sample.passed95 5 ]
           (Event.TestsFailed Sample.failed 2)
           (Sample.state testing 2 [] Sample.green));
    reflexivity.
Defined.

(** X5. A [TestsFailed] or [TypeCheckFailed] event leaves a state that has
    not converged: the streak is 0 and the score at most 0.3. *)
Theorem evolve_failure_not_converged (s : State.t) (e : Event.t) :
  isFailure e = true ->
  hasConverged (evolve s e) = false
  /\ State.convergenceStreak (evolve s e) = 0
  /\ (Confidence.overallScore (State.confidence (evolve s e)) <= 0.3)%Q.
Proof.
  intros Hf.
  assert (Hk : State.convergenceStreak (evolve s e) = 0).
  { rewrite evolve_streak, Hf.
    destruct e; try discriminate Hf; reflexivity. }
  repeat split.
  - unfold hasConverged. rewrite Hk. apply andb_false_r.
  - exact Hk.
  - destruct e; try discriminate Hf; cbn.
    + unfold calculateOverallConfidence. cbn.
      destruct (Confidence.typesSafe _); cbn; [| discriminate].
      destruct (Confidence.schemaValid _); cbn; discriminate.
    + discriminate.
Qed.

Lemma evolve_failure_not_converged_witness :
  hasConverged
    (evolve (withConfidence (Sample.state testing 2 [] Sample.green)
               (confidenceAfterTests (Sample.state testing 2 [] Sample.green)
                  true Sample.passed95) 5 true 0)
            (Event.TypeCheckFailed ["TS2322"] 9)) = false.
Proof.
  apply (evolve_failure_not_converged
           (withConfidence (Sample.state testing 2 [] Sample.green)
              (confidenceAfterTests (Sample.state testing 2 [] Sample.green)
                 true Sample.passed95) 5 true 0)
           (Event.TypeCheckFailed ["TS2322"] 9)).
  reflexivity.
Defined.

(** ** The convergence threshold *)

(** X6. The score reaches the convergence threshold 0.9 exactly when types,
    schema and tests pass, the checklist is complete and coverage is at
    least 48. *)
Theorem score_reaches_threshold (c : Confidence.t) :
  (CONVERGENCE_THRESHOLD <= calculateOverallConfidence c)%Q <->
  Confidence.typesSafe c = true
  /\ Confidence.schemaValid c = true
  /\ Confidence.testsPass c = true
  /\ Confidence.checklistComplete c = true
  /\ (48 <= Confidence.coverage c)%Q.
Proof.
  unfold CONVERGENCE_THRESHOLD, calculateOverallConfidence.
  destruct (Confidence.typesSafe c); cbn [negb];
    [| split; [intros H; exfalso; lra
              | intros (H & _); discriminate H]].
  destruct (Confidence.schemaValid c); cbn [negb];
    [| split; [intros H; exfalso; lra
              | intros (_ & H & _); discriminate H]].
  destruct (Confidence.testsPass c); cbn [negb];
    [| split; [intros H; exfalso; lra
              | intros (_ & _ & H & _); discriminate H]].
  cbv zeta.
  destruct (Confidence.checklistComplete c).
  - rewrite coverage_threshold. intuition.
  - split; [| intros (_ & _ & _ & H & _); discriminate H].
    intros H. exfalso.
    pose proof (coverageScore_le (Confidence.coverage c)). lra.
Qed.

(** ** The stored score *)

(** X7. If the stored [overallScore] is the one the flags give, it still is
    after every event other than [ConfidenceUpdated] and
    [ConvergenceReached], which write it from the event. *)
Theorem evolve_keeps_scoreConsistent (s : State.t) (e : Event.t) :
  overwritesScore e = false ->
  scoreConsistent s ->
  scoreConsistent (evolve s e).
Proof.
  intros Ho Hs.
  evolve_cases e; try discriminate Ho; try exact Hs; reflexivity.
Qed.

Lemma evolve_keeps_scoreConsistent_witness :
  scoreConsistent
    (evolve (createInitialState 0 "hello")
            (Event.TestsPassed Sample.passed95 1)).
Proof.
  apply (evolve_keeps_scoreConsistent (createInitialState 0 "hello")
           (Event.TestsPassed Sample.passed95 1));
    reflexivity.
Defined.

(** ** Budgets *)

Lemma map_phase_replace (f : TurnBudget.t -> TurnBudget.t)
    (l : list TurnBudget.t) :
  (forall b, TurnBudget.phase (f b) = TurnBudget.phase b) ->
  map TurnBudget.phase (map f l) = map TurnBudget.phase l.
Proof. intros H. rewrite map_map. apply map_ext. exact H. Qed.

Lemma evolve_budget_phases (s : State.t) (e : Event.t) :
  rewritesBudgetPhases e = false ->
  map TurnBudget.phase (State.budgets (evolve s e))
  = map TurnBudget.phase (State.budgets s).
Proof.
  intros H.
  evolve_cases e; try discriminate H; try reflexivity;
    cbn; apply map_phase_replace; intros b;
    destruct (Phase_eqb (TurnBudget.phase b) phase) eqn:E; try reflexivity.
  cbn in H. apply negb_false_iff, Phase_eqb_eq in H.
  apply Phase_eqb_eq in E. congruence.
Qed.

(** X8. The list of phases the budget entries are filed under, in order, is
    the same after any replay that holds no [Initialized] event and no
    [PhaseStarted] event carrying an entry of another phase than the one it
    names; one entry per phase stays one entry per phase. *)
Theorem replay_budget_phases (es : list Event.t) (s : State.t) :
  forallb (fun e => negb (rewritesBudgetPhases e)) es = true ->
  map TurnBudget.phase (State.budgets (replay es s))
  = map TurnBudget.phase (State.budgets s).
Proof.
  revert s. induction es as [| e es IH]; intros s H; [reflexivity |].
  cbn [forallb] in H. apply andb_true_iff in H as [He Hes].
  change (replay (e :: es) s) with (replay es (evolve s e)).
  rewrite IH by exact Hes.
  apply evolve_budget_phases. now apply negb_true_iff.
Qed.

Lemma replay_budget_phases_witness :
  map TurnBudget.phase
    (State.budgets
       (replay [ Event.TurnCompleted 1 requirements 10 1;
                 Event.PhaseCompleted requirements 1 2;
                 Event.PhaseStarted design (Sample.budget design 20 0) 3;
                 Event.BudgetExhausted design 20 4 ]
               (createInitialState 0 "hello")))
  = PHASE_ORDER.
Proof.
  rewrite (replay_budget_phases
             [ Event.TurnCompleted 1 requirements 10 1;
               Event.PhaseCompleted requirements 1 2;
               Event.PhaseStarted design (Sample.budget design 20 0) 3;
               Event.BudgetExhausted design 20 4 ]
             (createInitialState 0 "hello") eq_refl).
  reflexivity.
Defined.

Lemma find_map_update (f : TurnBudget.t -> TurnBudget.t) (p : Phase)
    (l : list TurnBudget.t) (b : TurnBudget.t) :
  (forall x, TurnBudget.phase (f x) = TurnBudget.phase x) ->
  find (fun x => Phase_eqb (TurnBudget.phase x) p) l = Some b ->
  find (fun x => Phase_eqb (TurnBudget.phase x) p)
       (map (fun x => if Phase_eqb (TurnBudget.phase x) p then f x else x) l)
  = Some (f b).
Proof.
  intros Hf. induction l as [| x l IH]; [discriminate |].
  cbn [find map].
  destruct (Phase_eqb (TurnBudget.phase x) p) eqn:E.
  - intros [= ->]. now rewrite Hf, E.
  - rewrite E. exact IH.
Qed.

Lemma roundToDouble_exact (n : Z) :
  - 2 ^ 53 <= n <= 2 ^ 53 -> roundToDouble n = n.
Proof.
  intros H. unfold roundToDouble. cbv zeta.
  destruct (Z.abs n <=? 2 ^ 53) eqn:E; [reflexivity |].
  apply Z.leb_gt in E. lia.
Qed.

Lemma evolve_TurnCompleted_budget (s : State.t) (b : TurnBudget.t)
    (e : Event.t) :
  isTurnCompletedOf (State.phase s) e = true ->
  currentBudget s = Some b ->
  currentBudget (evolve s e)
  = Some (setUsedTurns b (numberAdd (TurnBudget.usedTurns b) 1))
  /\ State.phase (evolve s e) = State.phase s
  /\ hasConverged (evolve s e) = hasConverged s.
Proof.
  intros He Hb. destruct e; try discriminate He.
  cbn in He. apply Phase_eqb_eq in He. subst phase.
  repeat split.
  unfold currentBudget in *. cbn.
  apply (find_map_update
           (fun x => setUsedTurns x (numberAdd (TurnBudget.usedTurns x) 1)));
    [reflexivity | exact Hb].
Qed.

Lemma replay_TurnCompleted_budget (es : list Event.t) :
  forall (s : State.t) (b : TurnBudget.t),
    forallb (isTurnCompletedOf (State.phase s)) es = true ->
    currentBudget s = Some b ->
    - 2 ^ 53 <= TurnBudget.usedTurns b ->
    TurnBudget.usedTurns b + Z.of_nat (length es) <= 2 ^ 53 ->
    currentBudget (replay es s)
    = Some (setUsedTurns b (TurnBudget.usedTurns b + Z.of_nat (length es)))
    /\ State.phase (replay es s) = State.phase s
    /\ hasConverged (replay es s) = hasConverged s.
Proof.
  induction es as [| e es IH]; intros s b H Hb Hlo Hhi.
  - cbn. repeat split. rewrite Hb, Z.add_0_r. now destruct b.
  - cbn [forallb] in H. apply andb_true_iff in H as [He Hes].
    cbn [length] in Hhi.
    destruct (evolve_TurnCompleted_budget s b e He Hb) as (Hb1 & Hp1 & Hc1).
    unfold numberAdd in Hb1. rewrite roundToDouble_exact in Hb1 by lia.
    change (replay (e :: es) s) with (replay es (evolve s e)).
    rewrite <- Hp1 in Hes.
    destruct (IH _ _ Hes Hb1) as (Hb2 & Hp2 & Hc2);
      [cbn; lia | cbn; lia |].
    repeat split; try congruence.
    rewrite Hb2. unfold setUsedTurns. cbn [length]. cbn. do 2 f_equal. lia.
Qed.

(** X9. Turns used add up to exhaustion: when the budget entry consulted
    for the current phase has [usedTurns = u] and [maxTurns = m], after [n]
    [TurnCompleted] events of that phase with [u + n >= m], [StartTurn]
    produces no [InvokeLLM] (the session not having converged), provided
    the count stays among the integers a [number] holds exactly:
    [-2^53 <= u] and [u + n <= 2^53]. *)
Theorem budget_runs_out
    (env : Ambient.t) (es : list Event.t) (s : State.t) (b : TurnBudget.t) :
  hasConverged s = false ->
  currentBudget s = Some b ->
  forallb (isTurnCompletedOf (State.phase s)) es = true ->
  - 2 ^ 53 <= TurnBudget.usedTurns b ->
  TurnBudget.usedTurns b + Z.of_nat (length es) <= 2 ^ 53 ->
  TurnBudget.maxTurns b <= TurnBudget.usedTurns b + Z.of_nat (length es) ->
  existsb isInvokeLLM (decide env Command.StartTurn (replay es s)) = false.
Proof.
  intros Hc Hb Hes Hlo Hhi Hle.
  destruct (replay_TurnCompleted_budget es s b Hes Hb Hlo Hhi)
    as (Hb' & _ & Hc').
  cbn [decide].
  rewrite (decideStartTurn_exhausted env (replay es s) _
             (eq_trans Hc' Hc) Hb'); [reflexivity |].
  cbn. exact Hle.
Qed.

Lemma budget_runs_out_witness :
  existsb isInvokeLLM
    (decide Sample.env Command.StartTurn
       (replay [ Event.TurnCompleted 5 implementation 900 1;
                 Event.TurnCompleted 6 implementation 700 2 ]
               Fixture.working)) = false.
Proof.
  apply (budget_runs_out Sample.env
           [ Event.TurnCompleted 5 implementation 900 1;
             Event.TurnCompleted 6 implementation 700 2 ]
           Fixture.working (Sample.budget implementation 3 1)).
  - reflexivity.
  - reflexivity.
  - reflexivity.
  - cbn. lia.
  - cbn. lia.
  - cbn. lia.
Defined.

(** Past [2^53] the increment is absorbed: a budget of [2^53 + 2] turns
    with [2^53] used is not exhausted by two more turns, nor by any
    number of them. *)
Example budget_increment_absorbed :
  let s := Sample.state implementation 1
             [ Sample.budget implementation (2 ^ 53 + 2) (2 ^ 53) ]
             Sample.green in
  let s' := replay [ Event.TurnCompleted 2 implementation 10 1;
                     Event.TurnCompleted 3 implementation 10 2 ] s in
  option_map TurnBudget.usedTurns (currentBudget s') = Some (2 ^ 53)
  /\ existsb isInvokeLLM (decide Sample.env Command.StartTurn s') = true.
Proof. split; vm_compute; reflexivity. Qed.

(** ** The checklist *)

Lemma itemAdvances_refl (a : ChecklistItem.t) : itemAdvances a a.
Proof. unfold itemAdvances. auto. Qed.

Lemma itemAdvances_trans (a b c : ChecklistItem.t) :
  itemAdvances a b -> itemAdvances b c -> itemAdvances a c.
Proof.
  unfold itemAdvances. intros (? & ? & ? & ?) (? & ? & ? & ?).
  repeat split; try congruence. auto.
Qed.

Lemma Forall2_itemAdvances_refl (l : list ChecklistItem.t) :
  Forall2 itemAdvances l l.
Proof. induction l; constructor; auto using itemAdvances_refl. Qed.

Lemma Forall2_itemAdvances_trans (l1 l2 l3 : list ChecklistItem.t) :
  Forall2 itemAdvances l1 l2 -> Forall2 itemAdvances l2 l3 ->
  Forall2 itemAdvances l1 l3.
Proof.
  intros H. revert l3. induction H; intros l3 H3; inversion H3; subst;
    constructor; eauto using itemAdvances_trans.
Qed.

Lemma Forall2_itemAdvances_map (f : ChecklistItem.t -> ChecklistItem.t)
    (l : list ChecklistItem.t) :
  (forall a, itemAdvances a (f a)) -> Forall2 itemAdvances l (map f l).
Proof. intros H. induction l; cbn; constructor; auto. Qed.

Lemma evolve_checklist (s : State.t) (e : Event.t) :
  isInitialized e = false ->
  Forall2 itemAdvances (State.checklist s) (State.checklist (evolve s e)).
Proof.
  intros H.
  evolve_cases e; try discriminate H;
    try apply Forall2_itemAdvances_refl.
  cbn. apply Forall2_itemAdvances_map. intros a.
  destruct (String.eqb (ChecklistItem.id a) itemId);
    [| apply itemAdvances_refl].
  unfold itemAdvances. cbn. auto.
Qed.

(** X10. Checklist completion is monotonic: across any replay without an
    [Initialized] event the checklist keeps its length and order, every item
    keeps its id, phase and description, and no completed item becomes
    incomplete. *)
Theorem replay_checklist_monotonic (es : list Event.t) (s : State.t) :
  forallb (fun e => negb (isInitialized e)) es = true ->
  Forall2 itemAdvances (State.checklist s) (State.checklist (replay es s)).
Proof.
  revert s. induction es as [| e es IH]; intros s H.
  - apply Forall2_itemAdvances_refl.
  - cbn [forallb] in H. apply andb_true_iff in H as [He Hes].
    change (replay (e :: es) s) with (replay es (evolve s e)).
    eapply Forall2_itemAdvances_trans; [| apply IH; exact Hes].
    apply evolve_checklist. now apply negb_true_iff.
Qed.

Lemma replay_checklist_monotonic_witness :
  Forall2 itemAdvances
    (State.checklist Fixture.working)
    (State.checklist
       (replay [ Event.ChecklistItemCompleted "i2" "tests green" 5;
                 Event.TestsFailed Sample.failed 6 ]
               Fixture.working)).
Proof.
  apply (replay_checklist_monotonic
           [ Event.ChecklistItemCompleted "i2" "tests green" 5;
             Event.TestsFailed Sample.failed 6 ]
           Fixture.working).
  reflexivity.
Defined.

Lemma map_idempotent_on {A : Type} (f : A -> A) (l : list A) :
  (forall a, f (f a) = f a) -> map f (map f l) = map f l.
Proof. intros H. rewrite map_map. apply map_ext. exact H. Qed.

(** X11. Applying the same [ChecklistItemCompleted] event twice gives the
    state the first application gave. *)
Theorem evolve_ChecklistItemCompleted_twice
    (s : State.t) (itemId evidence : string) (ts : Date) :
  let e := Event.ChecklistItemCompleted itemId evidence ts in
  evolve (evolve s e) e = evolve s e.
Proof.
  cbn [evolve]. unfold evolveChecklistItemCompleted at 1.
  set (s1 := evolveChecklistItemCompleted s itemId evidence ts).
  assert (Hl : map (fun item =>
                      if String.eqb (ChecklistItem.id item) itemId
                      then {| ChecklistItem.id := ChecklistItem.id item;
                              ChecklistItem.phase := ChecklistItem.phase item;
                              ChecklistItem.description :=
                                ChecklistItem.description item;
                              ChecklistItem.completed := true;
                              ChecklistItem.evidence := Some evidence;
                              ChecklistItem.completedAt := Some ts |}
                      else item) (State.checklist s1)
               = State.checklist s1).
  { subst s1. cbn [evolveChecklistItemCompleted State.checklist].
    apply map_idempotent_on. intros a.
    destruct (String.eqb (ChecklistItem.id a) itemId) eqn:E; cbn;
      rewrite E; reflexivity. }
  cbv zeta. rewrite Hl.
  subst s1. unfold evolveChecklistItemCompleted. cbn. reflexivity.
Qed.

Lemma map_unchanged {A : Type} (f : A -> A) (l : list A) :
  (forall a, In a l -> f a = a) -> map f l = l.
Proof.
  intros H. induction l as [| a l IH]; [reflexivity |].
  cbn. rewrite H by now left. rewrite IH; [reflexivity |].
  intros x Hx. apply H. now right.
Qed.

(** X12. A [ChecklistItemCompleted] event naming an id that no item has
    changes no item, and still sets [checklistComplete] to whether every
    item is completed, which is true for an empty checklist. *)
Theorem evolve_ChecklistItemCompleted_unknown
    (s : State.t) (itemId evidence : string) (ts : Date) :
  (forall item, In item (State.checklist s) ->
                ChecklistItem.id item <> itemId) ->
  let s' := evolve s (Event.ChecklistItemCompleted itemId evidence ts) in
  State.checklist s' = State.checklist s
  /\ Confidence.checklistComplete (State.confidence s')
     = forallb ChecklistItem.completed (State.checklist s).
Proof.
  intros H s'. subst s'. cbn.
  rewrite map_unchanged; [split; reflexivity |].
  intros a Ha. apply H in Ha. apply String.eqb_neq in Ha. now rewrite Ha.
Qed.

Lemma evolve_ChecklistItemCompleted_unknown_witness :
  let s := createInitialState 0 "hello" in
  let s' := evolve s (Event.ChecklistItemCompleted "nope" "none" 1) in
  Confidence.checklistComplete (State.confidence s) = false
  /\ Confidence.checklistComplete (State.confidence s') = true.
Proof.
  split; [reflexivity |].
  apply (evolve_ChecklistItemCompleted_unknown (createInitialState 0 "hello")
           "nope" "none" 1).
  intros item H. destruct H.
Defined.

(** ** Artifacts *)

Lemma evolve_artifactKeys (s : State.t) (e : Event.t) :
  map artifactKey (State.artifacts (evolve s e))
  = (map artifactKey (State.artifacts s)
       ++ map artifactKey (createdArtifacts [e]))%list.
Proof.
  evolve_cases e; cbn; try (rewrite app_nil_r; reflexivity).
  - apply map_app.
  - rewrite app_nil_r, map_map. apply map_ext. intros a.
    destruct (String.eqb (Artifact.id a) artifactId); reflexivity.
Qed.

(** X13. Artifacts are never removed or renamed: after any replay the ids
    and paths of the artifact list are those it had before, in order,
    followed by those of the artifacts the [ArtifactCreated] events carry. *)
Theorem replay_artifactKeys (es : list Event.t) (s : State.t) :
  map artifactKey (State.artifacts (replay es s))
  = (map artifactKey (State.artifacts s)
       ++ map artifactKey (createdArtifacts es))%list.
Proof.
  revert s. induction es as [| e es IH]; intros s.
  - cbn. now rewrite app_nil_r.
  - change (replay (e :: es) s) with (replay es (evolve s e)).
    rewrite IH, evolve_artifactKeys.
    unfold createdArtifacts. cbn [flat_map].
    now rewrite app_nil_r, map_app, app_assoc.
Qed.

(** X14. An [ArtifactUpdated] event naming an id that no artifact has leaves
    the artifact list as it was. *)
Theorem evolve_ArtifactUpdated_unknown
    (s : State.t) (artifactId newHash : string) (ts : Date) :
  (forall a, In a (State.artifacts s) -> Artifact.id a <> artifactId) ->
  State.artifacts (evolve s (Event.ArtifactUpdated artifactId newHash ts))
  = State.artifacts s.
Proof.
  intros H. cbn. apply map_unchanged.
  intros a Ha. apply H in Ha. apply String.eqb_neq in Ha. now rewrite Ha.
Qed.

Lemma evolve_ArtifactUpdated_unknown_witness :
  State.artifacts
    (evolve Fixture.working (Event.ArtifactUpdated "a9" "h1" 7))
  = State.artifacts Fixture.working.
Proof.
  apply (evolve_ArtifactUpdated_unknown Fixture.working "a9" "h1" 7).
  intros a [<- | []]. discriminate.
Defined.

(** ** Checkpoints *)

(** X15. The checkpoint rendezvous: a [CheckpointCreated] followed by
    [CheckpointApproved] with the summary's id leaves nothing pending and
    the summary as [lastApprovedCheckpoint]; followed by
    [CheckpointRejected] instead, it leaves nothing pending and
    [lastApprovedCheckpoint] as it was. *)
Theorem checkpoint_rendezvous
    (s : State.t) (c : CheckpointSummary.t) (reason : string)
    (t1 t2 : Date) :
  let pending := evolve s (Event.CheckpointCreated c t1) in
  let approved :=
    evolve pending (Event.CheckpointApproved (CheckpointSummary.id c) t2) in
  let rejected :=
    evolve pending
           (Event.CheckpointRejected (CheckpointSummary.id c) reason t2) in
  State.pendingCheckpoint pending = Some c
  /\ State.pendingCheckpoint approved = None
  /\ State.lastApprovedCheckpoint approved = Some c
  /\ State.pendingCheckpoint rejected = None
  /\ State.lastApprovedCheckpoint rejected = State.lastApprovedCheckpoint s.
Proof.
  cbv zeta. cbn [evolve].
  unfold evolveCheckpointCreated, evolveCheckpointApproved,
    evolveCheckpointRejected, pendingIdDiffers.
  cbn [withCheckpoints State.pendingCheckpoint].
  rewrite String.eqb_refl. cbn. repeat split.
Qed.

(* ------------------------------------------------------------------ *)
(** * Further properties of the decider *)

(** X16. [StartTurn] asks for an LLM call exactly when the session has not
    converged and the budget entry consulted for the phase, if there is
    one, has turns left; with no entry for the phase the call is always
    made. *)
Theorem decide_StartTurn_invokes_iff (env : Ambient.t) (s : State.t) :
  existsb isInvokeLLM (decide env Command.StartTurn s) = true <->
  hasConverged s = false
  /\ (forall b, currentBudget s = Some b ->
                TurnBudget.usedTurns b < TurnBudget.maxTurns b).
Proof.
  cbn [decide]. unfold decideStartTurn.
  destruct (hasConverged s).
  - cbn. split; [discriminate | intros [H _]; discriminate H].
  - cbv zeta. destruct (currentBudget s) as [b |]; cbn [budgetExhausted].
    + destruct (TurnBudget.maxTurns b <=? TurnBudget.usedTurns b) eqn:E.
      * apply Z.leb_le in E. cbn. split; [discriminate |].
        intros [_ H]. specialize (H b eq_refl). lia.
      * apply Z.leb_gt in E. cbn. split; [| reflexivity].
        intros _. split; [reflexivity |]. intros b' [= <-]. exact E.
    + cbn. split; [| reflexivity].
      intros _. split; [reflexivity |]. intros b H. discriminate H.
Qed.

(** X17. After an [Initialized] event, a further [Initialize] command asks
    for the requirements extraction again exactly when the event's checklist
    was empty; with a checklist in place it only warns. *)
Theorem decide_Initialize_after_Initialized
    (env : Ambient.t) (s : State.t) (prompt prompt' : string)
    (checklist : list ChecklistItem.t) (budgets : list TurnBudget.t)
    (budgets' : option (list TurnBudget.t)) (ts : Date) :
  let s' := evolve s (Event.Initialized prompt checklist budgets ts) in
  decide env (Command.Initialize prompt' budgets') s' =
    match checklist with
    | [] =>
        [ Effect.Log info "Initializing Turbine session"
            [("promptLength", num (strLength prompt'))];
          Effect.StartSpan "turbine.session"
            [("prompt", JsString (slice0 100 prompt'))];
          Effect.InvokeLLM (buildRequirementsExtractionPrompt prompt')
            (Some REQUIREMENTS_EXTRACTION_SYSTEM_PROMPT) 4000 None ]
    | _ :: _ =>
        [ Effect.Log warn "Attempted to initialize already-started session"
            [("turn", num 0)] ]
    end.
Proof. destruct checklist; reflexivity. Qed.

Lemma flat_map_toolUseEffects (l : list ToolUse.t) :
  flat_map toolUseEffects l
  = map (fun u => Effect.WriteFile (getProperty (ToolUse.input u) "path")
                                   (getProperty (ToolUse.input u) "content"))
        (filter (fun u =>
                   String.eqb (ToolUse.tool u) "write_file"
                   && isTruthy (getProperty (ToolUse.input u) "path")
                   && isTruthy (getProperty (ToolUse.input u) "content"))
                l).
Proof.
  induction l as [| u l IH]; [reflexivity |].
  cbn [flat_map filter]. rewrite IH. unfold toolUseEffects at 1.
  destruct (String.eqb (ToolUse.tool u) "write_file"); [| reflexivity].
  cbv zeta. cbn [andb].
  destruct (isTruthy _ && isTruthy _); reflexivity.
Qed.

(** X18. [ProcessLLMResponse] turns the tool uses into [WriteFile]
    effects, in order: one for each tool use whose [tool] is [write_file]
    and whose [input.path] and [input.content] are both truthy, carrying
    these two values, and none for the others; so no [WriteFile] carries an
    empty string as path or content.  It adds [RunTests] with coverage and
    [CheckTypes] exactly in the phases [implementation] and [testing]. *)
Theorem decide_ProcessLLMResponse_effects
    (env : Ambient.t) (response : LLMResponse.t) (s : State.t) :
  let effects := decide env (Command.ProcessLLMResponse response) s in
  filter isWriteFile effects
  = map (fun u => Effect.WriteFile (getProperty (ToolUse.input u) "path")
                                   (getProperty (ToolUse.input u) "content"))
        (filter (fun u =>
                   String.eqb (ToolUse.tool u) "write_file"
                   && isTruthy (getProperty (ToolUse.input u) "path")
                   && isTruthy (getProperty (ToolUse.input u) "content"))
                (LLMResponse.toolUses response))
  /\ (forall path content,
        In (Effect.WriteFile path content) effects ->
        isTruthy path = true /\ isTruthy content = true
        /\ path <> UnknownString "" /\ content <> UnknownString "")
  /\ filter isVerification effects
     = if Phase_eqb (State.phase s) implementation
          || Phase_eqb (State.phase s) testing
       then [ Effect.RunTests None (Some true); Effect.CheckTypes ]
       else [].
Proof.
  assert (Hw : forall l, filter isWriteFile (flat_map toolUseEffects l)
                         = flat_map toolUseEffects l).
  { induction l as [| u l IH]; [reflexivity |].
    cbn [flat_map]. rewrite filter_app, IH. f_equal.
    destruct (toolUseEffects_cases u) as [-> | ->]; reflexivity. }
  assert (Hv : forall l, filter isVerification (flat_map toolUseEffects l)
                         = []).
  { induction l as [| u l IH]; [reflexivity |].
    cbn [flat_map]. rewrite filter_app, IH, app_nil_r.
    destruct (toolUseEffects_cases u) as [-> | ->]; reflexivity. }
  assert (H1 : filter isWriteFile
                 (decide env (Command.ProcessLLMResponse response) s)
               = flat_map toolUseEffects (LLMResponse.toolUses response)).
  { cbn [decide]. unfold decideProcessLLMResponse. cbv zeta.
    destruct (_ || _); repeat rewrite filter_app; rewrite Hw; cbn;
      rewrite ?app_nil_r; reflexivity. }
  cbv zeta. split; [| split].
  - rewrite H1. apply flat_map_toolUseEffects.
  - intros path content Hin.
    assert (Hf : In (Effect.WriteFile path content)
                    (filter isWriteFile
                       (decide env (Command.ProcessLLMResponse response) s)))
      by (apply filter_In; split; [exact Hin | reflexivity]).
    rewrite H1, flat_map_toolUseEffects in Hf.
    apply in_map_iff in Hf as (u & Hu & Hin').
    apply filter_In in Hin' as [_ Ht].
    injection Hu as <- <-.
    apply andb_true_iff in Ht as [Ht Hc].
    apply andb_true_iff in Ht as [_ Hp].
    repeat split; try assumption.
    + intros E. rewrite E in Hp. discriminate Hp.
    + intros E. rewrite E in Hc. discriminate Hc.
  - cbn [decide]. unfold decideProcessLLMResponse. cbv zeta.
    destruct (_ || _); repeat rewrite filter_app; rewrite Hv; cbn;
      reflexivity.
Qed.

(** A tool use whose path is a truthy value that is not a string still
    yields a [WriteFile], carrying that value. *)
Example decide_ProcessLLMResponse_nonstring_path :
  let response :=
    {| LLMResponse.content := "";
       LLMResponse.toolUses :=
         [ {| ToolUse.tool := "write_file";
              ToolUse.input := [ ("path", UnknownNumber 5);
                                 ("content", UnknownString "x") ];
              ToolUse.result := UnknownUndefined |};
           {| ToolUse.tool := "write_file";
              ToolUse.input := [ ("path", UnknownString "a.ts");
                                 ("content", UnknownString "") ];
              ToolUse.result := UnknownUndefined |};
           {| ToolUse.tool := "read_file";
              ToolUse.input := [ ("path", UnknownString "a.ts");
                                 ("content", UnknownString "y") ];
              ToolUse.result := UnknownUndefined |} ];
       LLMResponse.tokensUsed := 12 |} in
  filter isWriteFile
    (decide Sample.env (Command.ProcessLLMResponse response)
            (Sample.state design 1 [] Sample.green))
  = [ Effect.WriteFile (UnknownNumber 5) (UnknownString "x") ].
Proof. reflexivity. Qed.

(** X19. [RecordTypeCheck] lists type errors only for a failed check that
    carries errors, and then the first five of them at most. *)
Theorem decide_RecordTypeCheck_errors
    (env : Ambient.t) (passed : bool) (errors : option (list string))
    (s : State.t) (level : LogLevel) (message : string) (context : Context)
    (l : list string) :
  In (Effect.Log level message context)
     (decide env (Command.RecordTypeCheck passed errors) s) ->
  In ("errors", JsStrings l) context ->
  passed = false
  /\ (length l <= 5)%nat
  /\ exists errs, errors = Some errs /\ l = firstn 5 errs.
Proof.
  cbn [decide]. unfold decideRecordTypeCheck. cbv zeta.
  intros Hin Hctx.
  destruct errors as [errs |]; [destruct passed |];
    unfold log, recordMetric in Hin; cbn [In app negb] in Hin;
    repeat match goal with
           | H : _ \/ _ |- _ => destruct H
           | H : False |- _ => destruct H
           | H : Effect.Log _ _ _ = Effect.Log _ _ _ |- _ =>
               injection H as <- <- <-
           | H : Effect.RecordMetric _ _ _ = _ |- _ => discriminate H
           end;
    cbn [In] in Hctx;
    repeat match goal with
           | H : _ \/ _ |- _ => destruct H
           | H : False |- _ => destruct H
           | H : (_, _) = (_, _) |- _ => inversion H; clear H; subst
           end.
  split; [reflexivity |]. split.
  - change (length (firstn 5 errs) <= 5)%nat. apply firstn_le_length.
  - exists errs. split; reflexivity.
Qed.

Lemma decide_RecordTypeCheck_errors_witness :
  let errs := ["e1"; "e2"; "e3"; "e4"; "e5"; "e6"; "e7"] in
  (length (firstn 5 errs) <= 5)%nat.
Proof.
  cbv zeta.
  apply (decide_RecordTypeCheck_errors Sample.env false
           (Some ["e1"; "e2"; "e3"; "e4"; "e5"; "e6"; "e7"])
           Fixture.working warn "Type errors found"
           [("count", num 7);
            ("errors", JsStrings ["e1"; "e2"; "e3"; "e4"; "e5"])]
           (firstn 5 ["e1"; "e2"; "e3"; "e4"; "e5"; "e6"; "e7"])).
  - cbn. right. right. left. reflexivity.
  - cbn. right. left. reflexivity.
Defined.

(** X20. No handler of [decide] builds a [ReadFile], [DeleteFile],
    [ListDirectory], [ValidateSchema] or [EndSpan] effect: the spans it
    starts are not ended by it. *)
Theorem decide_never_decided
    (env : Ambient.t) (c : Command.t) (s : State.t) :
  existsb isNeverDecided (decide env c s) = false.
Proof.
  assert (Ht : forall l, existsb isNeverDecided (flat_map toolUseEffects l)
                         = false).
  { induction l as [| u l IH]; [reflexivity |].
    cbn [flat_map]. rewrite existsb_app, IH, orb_false_r.
    destruct (toolUseEffects_cases u) as [-> | ->]; reflexivity. }
  destruct c; cbn [decide].
  - unfold decideInitialize. destruct (_ || _); reflexivity.
  - unfold decideAdvancePhase.
    destruct (at_index _ _); [| reflexivity].
    destruct (negb _); reflexivity.
  - unfold decideStartTurn.
    destruct (hasConverged s); [reflexivity |].
    cbv zeta. destruct (budgetExhausted _); reflexivity.
  - unfold decideProcessLLMResponse. cbv zeta.
    destruct (_ || _); repeat rewrite existsb_app; rewrite Ht; reflexivity.
  - unfold decideRecordArtifact. cbv zeta. destruct (find _ _); reflexivity.
  - unfold decideRecordTestResult. cbv zeta.
    destruct (TestResult.coverage result); reflexivity.
  - unfold decideRecordTypeCheck. cbv zeta.
    destruct errors; [destruct (negb passed) |]; reflexivity.
  - unfold decideCompleteChecklistItem.
    destruct (find _ _) as [item |]; [| reflexivity].
    destruct (ChecklistItem.completed item); reflexivity.
  - unfold decideRequestCheckpoint.
    destruct (State.pendingCheckpoint s); reflexivity.
  - unfold decideApproveCheckpoint.
    destruct (State.pendingCheckpoint s); reflexivity.
  - unfold decideRejectCheckpoint.
    destruct (State.pendingCheckpoint s); reflexivity.
  - reflexivity.
  - reflexivity.
Qed.

Lemma find_completed_item (itemId evidence : string) (ts : Date)
    (l : list ChecklistItem.t) :
  (exists item, In item l /\ ChecklistItem.id item = itemId) ->
  exists item',
    find (fun i => String.eqb (ChecklistItem.id i) itemId)
         (map (fun item =>
                 if String.eqb (ChecklistItem.id item) itemId
                 then {| ChecklistItem.id := ChecklistItem.id item;
                         ChecklistItem.phase := ChecklistItem.phase item;
                         ChecklistItem.description :=
                           ChecklistItem.description item;
                         ChecklistItem.completed := true;
                         ChecklistItem.evidence := Some evidence;
                         ChecklistItem.completedAt := Some ts |}
                 else item) l) = Some item'
    /\ ChecklistItem.completed item' = true.
Proof.
  intros (item & Hin & Hid).
  induction l as [| x l IH]; [contradiction |].
  cbn [map find].
  destruct (String.eqb (ChecklistItem.id x) itemId) eqn:E.
  - cbn [ChecklistItem.id]. rewrite E. eexists. split; reflexivity.
  - rewrite E. apply IH.
    destruct Hin as [-> | Hin]; [| exact Hin].
    apply String.eqb_neq in E. contradiction.
Qed.

(** X21. Once a [ChecklistItemCompleted] event for an id some item has is
    applied, [CompleteChecklistItem] for that id only reports that the item
    is already completed. *)
Theorem decide_CompleteChecklistItem_after_evolve
    (env : Ambient.t) (s : State.t) (itemId evidence evidence' : string)
    (ts : Date) :
  (exists item, In item (State.checklist s)
                /\ ChecklistItem.id item = itemId) ->
  decide env (Command.CompleteChecklistItem itemId evidence')
         (evolve s (Event.ChecklistItemCompleted itemId evidence ts))
  = [ Effect.Log info "Checklist item already completed"
        [("itemId", JsString itemId)] ].
Proof.
  intros H.
  destruct (find_completed_item itemId evidence ts _ H) as (x & Hf & Hc).
  cbn [decide evolve]. unfold decideCompleteChecklistItem.
  cbn [evolveChecklistItemCompleted State.checklist].
  rewrite Hf, Hc. reflexivity.
Qed.

Lemma decide_CompleteChecklistItem_after_evolve_witness :
  decide Sample.env (Command.CompleteChecklistItem "i2" "again")
         (evolve Fixture.working
                 (Event.ChecklistItemCompleted "i2" "tests green" 5))
  = [ Effect.Log info "Checklist item already completed"
        [("itemId", JsString "i2")] ].
Proof.
  apply (decide_CompleteChecklistItem_after_evolve Sample.env
           Fixture.working "i2" "tests green" "again" 5).
  exists (Fixture.item "i2" implementation false).
  split; [right; left; reflexivity | reflexivity].
Defined.

(** X22. With nothing pending, [RequestCheckpoint] emits a summary under
    the fresh id and waits for approval of that same id for 300000 ms; the
    summary counts no more completed items than the checklist has.  Once the
    [CheckpointCreated] event for it is applied, a further
    [RequestCheckpoint] only warns. *)
Theorem decide_RequestCheckpoint_protocol
    (env env' : Ambient.t) (s : State.t) (ts : Date) :
  State.pendingCheckpoint s = None ->
  exists context summary,
    decide env Command.RequestCheckpoint s
    = [ Effect.Log info "Checkpoint requested" context;
        Effect.EmitCheckpoint summary;
        Effect.WaitForApproval (CheckpointSummary.id summary) 300000 ]
    /\ CheckpointSummary.id summary = Ambient.uuid env
    /\ 0 <= CheckpointSummary.checklistProgress_completed summary
         <= CheckpointSummary.checklistProgress_total summary
    /\ CheckpointSummary.checklistProgress_total summary
       = Z.of_nat (length (State.checklist s))
    /\ decide env' Command.RequestCheckpoint
              (evolve s (Event.CheckpointCreated summary ts))
       = [ Effect.Log warn "Checkpoint already pending"
             [("checkpointId", JsString (Ambient.uuid env))] ].
Proof.
  intros Hp. cbn [decide]. unfold decideRequestCheckpoint. rewrite Hp.
  do 2 eexists. split; [reflexivity |].
  cbn. repeat split.
  - lia.
  - apply Nat2Z.inj_le. apply filter_length_le.
Qed.

Lemma decide_RequestCheckpoint_protocol_witness :
  exists context summary,
    decide Sample.env Command.RequestCheckpoint Fixture.working
    = [ Effect.Log info "Checkpoint requested" context;
        Effect.EmitCheckpoint summary;
        Effect.WaitForApproval (CheckpointSummary.id summary) 300000 ]
    /\ CheckpointSummary.checklistProgress_completed summary = 1
    /\ CheckpointSummary.checklistProgress_total summary = 2.
Proof.
  destruct (decide_RequestCheckpoint_protocol Sample.env Sample.env
              Fixture.working 9 eq_refl)
    as (context & summary & Hd & _).
  exists context, summary. split; [exact Hd |].
  cbn in Hd. injection Hd as _ <-. split; reflexivity.
Defined.

(* ------------------------------------------------------------------ *)
(** * From results back to state *)

Lemma resultToEvents_quiet (env : Ambient.t) (effect : Effect.t)
    (result : EffectResult.t) (s : State.t) :
  isQuiet effect = true ->
  executeEffectImpl effect result ->
  resultToEvents env effect result s = [].
Proof. intros Hq Hx. destruct Hx; try discriminate Hq; reflexivity. Qed.

Lemma resultsToEventsFrom_quiet (envs : nat -> Ambient.t) (s : State.t)
    (effects : list Effect.t) (results : list EffectResult.t) :
  forallb isQuiet effects = true ->
  Forall2 executeEffectImpl effects results ->
  forall i, resultsToEventsFrom envs i effects results s = [].
Proof.
  intros Hq Hx. induction Hx as [| e r es rs He Hes IH]; intros i.
  - reflexivity.
  - cbn [forallb] in Hq. apply andb_true_iff in Hq as [Hq1 Hq2].
    cbn [resultsToEventsFrom].
    rewrite (resultToEvents_quiet _ _ _ _ Hq1 He), IH by exact Hq2.
    reflexivity.
Qed.

Lemma decide_quiet (env : Ambient.t) (c : Command.t) (s : State.t) :
  isProcessLLMResponse c = false ->
  forallb isQuiet (decide env c s) = true.
Proof.
  intros Hc. destruct c; try discriminate Hc; cbn [decide].
  - unfold decideInitialize. destruct (_ || _); reflexivity.
  - unfold decideAdvancePhase.
    destruct (at_index _ _); [| reflexivity].
    destruct (negb _); reflexivity.
  - unfold decideStartTurn.
    destruct (hasConverged s); [reflexivity |].
    cbv zeta. destruct (budgetExhausted _); reflexivity.
  - unfold decideRecordArtifact. cbv zeta. destruct (find _ _); reflexivity.
  - unfold decideRecordTestResult. cbv zeta.
    destruct (TestResult.coverage result); reflexivity.
  - unfold decideRecordTypeCheck. cbv zeta.
    destruct errors; [destruct (negb passed) |]; reflexivity.
  - unfold decideCompleteChecklistItem.
    destruct (find _ _) as [item |]; [| reflexivity].
    destruct (ChecklistItem.completed item); reflexivity.
  - unfold decideRequestCheckpoint.
    destruct (State.pendingCheckpoint s); reflexivity.
  - unfold decideApproveCheckpoint.
    destruct (State.pendingCheckpoint s); reflexivity.
  - unfold decideRejectCheckpoint.
    destruct (State.pendingCheckpoint s); reflexivity.
  - reflexivity.
  - reflexivity.
Qed.

(** X23. For every command other than [ProcessLLMResponse], whatever the
    adapters answer, the results of the decided effects map to no event, and
    the command leaves the state as it was. *)
Theorem processCommand_without_events
    (env : Ambient.t) (envs : nat -> Ambient.t) (c : Command.t)
    (results : list EffectResult.t) (s : State.t) :
  isProcessLLMResponse c = false ->
  executeEffects (decide env c s) results ->
  resultsToEvents envs (decide env c s) results s = []
  /\ processCommandState env envs c results s = s.
Proof.
  intros Hc Hx.
  assert (H : resultsToEvents envs (decide env c s) results s = []).
  { apply resultsToEventsFrom_quiet; [apply decide_quiet; exact Hc | exact Hx]. }
  split; [exact H |].
  unfold processCommandState. cbv zeta. rewrite H. reflexivity.
Qed.

Lemma processCommand_without_events_witness :
  let results :=
    [ EffectResult.SpanStarted "span_1";
      EffectResult.Logged "info" "Starting turn";
      EffectResult.LLMResponse "done" [] 1200 ] in
  State.turn
    (processCommandState Sample.env Fixture.envs Command.StartTurn results
       Fixture.working) = 4.
Proof.
  cbv zeta.
  rewrite (proj2 (processCommand_without_events Sample.env Fixture.envs
                    Command.StartTurn
                    [ EffectResult.SpanStarted "span_1";
                      EffectResult.Logged "info" "Starting turn";
                      EffectResult.LLMResponse "done" [] 1200 ]
                    Fixture.working eq_refl
                    ltac:(repeat constructor))).
  reflexivity.
Defined.

Lemma sameProgress_refl (s : State.t) : sameProgress s s.
Proof. unfold sameProgress. repeat split. Qed.

Lemma sameProgress_trans (s1 s2 s3 : State.t) :
  sameProgress s1 s2 -> sameProgress s2 s3 -> sameProgress s1 s3.
Proof.
  unfold sameProgress.
  intros (? & ? & ? & ? & ? & ? & ? & ?) (? & ? & ? & ? & ? & ? & ? & ?).
  repeat split; congruence.
Qed.

Lemma resultToEvents_sameProgress (env : Ambient.t) (effect : Effect.t)
    (result : EffectResult.t) (s0 : State.t) (ev : Event.t) :
  In ev (resultToEvents env effect result s0) ->
  forall s, sameProgress s (evolve s ev).
Proof.
  intros Hin s. unfold resultToEvents in Hin.
  destruct result; try contradiction; cbv zeta in Hin.
  - destruct (find _ _); destruct Hin as [<- | []]; repeat split.
  - destruct (TestResult.passed result); destruct Hin as [<- | []];
      repeat split.
  - destruct passed; destruct Hin as [<- | []]; repeat split.
Qed.

Lemma replay_sameProgress (es : list Event.t) :
  (forall ev, In ev es -> forall s, sameProgress s (evolve s ev)) ->
  forall s, sameProgress s (fold_left evolve es s).
Proof.
  induction es as [| e es IH]; intros H s.
  - apply sameProgress_refl.
  - cbn [fold_left]. eapply sameProgress_trans.
    + apply H. now left.
    + apply IH. intros ev Hev. apply H. now right.
Qed.

Lemma resultsToEventsFrom_In (envs : nat -> Ambient.t) (s : State.t)
    (effects : list Effect.t) :
  forall (results : list EffectResult.t) (i : nat) (ev : Event.t),
    In ev (resultsToEventsFrom envs i effects results s) ->
    exists env effect result, In ev (resultToEvents env effect result s).
Proof.
  induction effects as [| e es IH]; intros results i ev Hin.
  - contradiction.
  - destruct results as [| r rs]; [contradiction |].
    cbn [resultsToEventsFrom] in Hin. apply in_app_or in Hin as [Hin | Hin].
    + eauto.
    + eapply IH. exact Hin.
Qed.

(** X24. Whatever the command and whatever results come back, the events
    derived from them leave turn, phase, prompt, checklist, budgets, both
    checkpoints and the start time as they were: on the path without
    exceptions, processing a command never advances the turn counter or the
    phase. *)
Theorem processCommand_sameProgress
    (env : Ambient.t) (envs : nat -> Ambient.t) (c : Command.t)
    (results : list EffectResult.t) (s : State.t) :
  sameProgress s (processCommandState env envs c results s).
Proof.
  unfold processCommandState. cbv zeta.
  apply replay_sameProgress. intros ev Hin.
  apply resultsToEventsFrom_In in Hin as (env' & effect & result & Hin).
  eapply resultToEvents_sameProgress. exact Hin.
Qed.

Lemma find_map_same_key (f : Artifact.t -> Artifact.t) (path : string)
    (l : list Artifact.t) :
  (forall a, Artifact.path (f a) = Artifact.path a) ->
  find (fun a => String.eqb (Artifact.path a) path) (map f l)
  = option_map f (find (fun a => String.eqb (Artifact.path a) path) l).
Proof.
  intros Hf. induction l as [| x l IH]; [reflexivity |].
  cbn [map find]. rewrite Hf.
  destruct (String.eqb (Artifact.path x) path); [reflexivity | exact IH].
Qed.

Lemma find_snoc_absent (path : string) (l : list Artifact.t)
    (a : Artifact.t) :
  find (fun x => String.eqb (Artifact.path x) path) l = None ->
  Artifact.path a = path ->
  find (fun x => String.eqb (Artifact.path x) path) (l ++ [a]) = Some a.
Proof.
  intros Hn Ha. induction l as [| x l IH].
  - cbn. now rewrite Ha, String.eqb_refl.
  - cbn [find app] in *.
    destruct (String.eqb (Artifact.path x) path); [discriminate | auto].
Qed.

(** X25. Written files can be looked up: after the event derived from a
    [FileWritten] result is applied, the first artifact with that path
    carries the written hash, whether the path was new (an artifact is
    appended) or known (the artifact found under the path is updated). *)
Theorem FileWritten_then_lookup
    (env : Ambient.t) (effect : Effect.t) (path hash : string)
    (s : State.t) :
  let s' :=
    fold_left evolve
      (resultToEvents env effect (EffectResult.FileWritten path hash) s) s in
  exists a,
    find (fun x => String.eqb (Artifact.path x) path) (State.artifacts s')
    = Some a
    /\ Artifact.hash a = hash
    /\ length (State.artifacts s')
       = (length (State.artifacts s)
          + match find (fun x => String.eqb (Artifact.path x) path)
                       (State.artifacts s) with
            | Some _ => 0
            | None => 1
            end)%nat.
Proof.
  cbv zeta. unfold resultToEvents.
  destruct (find _ (State.artifacts s)) as [existing |] eqn:Hf;
    cbn [fold_left evolve].
  - unfold evolveArtifactUpdated. cbn [withArtifacts State.artifacts].
    rewrite find_map_same_key, Hf.
    + cbn [option_map]. rewrite String.eqb_refl.
      eexists. repeat split. rewrite length_map. lia.
    + intros a. destruct (String.eqb _ _); reflexivity.
  - unfold evolveArtifactCreated. cbn [withArtifacts State.artifacts].
    eexists. split; [apply find_snoc_absent; [exact Hf | reflexivity] |].
    split; [reflexivity |]. rewrite length_app. reflexivity.
Qed.

(** X26. The [confidence] metric [RecordTestResult] reports is the score
    the state holds once the event derived from the same test result is
    applied. *)
Theorem decide_RecordTestResult_predicts_score
    (env env' : Ambient.t) (effect : Effect.t) (result : TestResult.t)
    (s : State.t) :
  let s' :=
    fold_left evolve
      (resultToEvents env' effect (EffectResult.TestsRan result) s) s in
  In (Effect.RecordMetric "confidence"
        (Confidence.overallScore (State.confidence s'))
        [("phase", phaseName (State.phase s))])
     (decide env (Command.RecordTestResult result) s).
Proof.
  cbv zeta. cbn [decide]. unfold decideRecordTestResult. cbv zeta.
  apply in_or_app. right. left.
  unfold resultToEvents, recordMetric, phaseTag.
  destruct (TestResult.passed result); reflexivity.
Qed.

(* ------------------------------------------------------------------ *)
(** * The orchestrator's conditions and the snapshot policy *)

(** X27. When [checkPhaseAdvancement] finds the phase's checklist complete
    and issues [AdvancePhase], the decider does not refuse: no warn-level
    log comes back. *)
Theorem allComplete_AdvancePhase_accepted (env : Ambient.t) (s : State.t) :
  allComplete s = true ->
  existsb isWarnLog (decide env Command.AdvancePhase s) = false.
Proof.
  intros H. cbn [decide]. unfold decideAdvancePhase.
  destruct (at_index _ _); [| reflexivity].
  unfold isPhaseChecklistComplete, phaseItems.
  unfold allComplete in H. cbv zeta in *. rewrite H. reflexivity.
Qed.

Lemma allComplete_AdvancePhase_accepted_witness :
  let s := evolve Fixture.working
                  (Event.ChecklistItemCompleted "i2" "tests green" 5) in
  existsb isWarnLog (decide Sample.env Command.AdvancePhase s) = false.
Proof.
  apply (allComplete_AdvancePhase_accepted Sample.env
           (evolve Fixture.working
                   (Event.ChecklistItemCompleted "i2" "tests green" 5))).
  reflexivity.
Defined.

(** X28. While [shouldStop] is false, the turn counter is below [maxTurns],
    [converged] is unset, and [StartTurn] never answers that the session has
    converged: it asks for an LLM call unless the budget consulted is
    exhausted. *)
Theorem shouldStop_false_StartTurn
    (env : Ambient.t) (maxTurns : Z) (s : State.t) :
  shouldStop maxTurns s = false ->
  State.turn s < maxTurns
  /\ State.converged s = false
  /\ existsb isInvokeLLM (decide env Command.StartTurn s)
     = negb (budgetExhausted (currentBudget s)).
Proof.
  unfold shouldStop. intros H.
  destruct (hasConverged s) eqn:Hc; [discriminate |].
  destruct (maxTurns <=? State.turn s) eqn:Ht; [discriminate |].
  destruct (State.converged s); [discriminate |].
  apply Z.leb_gt in Ht. repeat split; [exact Ht |].
  cbn [decide]. unfold decideStartTurn. rewrite Hc. cbv zeta.
  destruct (budgetExhausted _); reflexivity.
Qed.

Lemma shouldStop_false_StartTurn_witness :
  existsb isInvokeLLM (decide Sample.env Command.StartTurn Fixture.working)
  = true.
Proof.
  rewrite (proj2 (proj2 (shouldStop_false_StartTurn Sample.env 20000
                           Fixture.working eq_refl))).
  reflexivity.
Defined.

(** X29. With a positive interval, every run of [interval] consecutive
    event indices holds one at which a snapshot is taken whatever the
    event; [PhaseStarted], [PhaseCompleted] and [ConvergenceReached] are
    snapshotted at any index. *)
Theorem shouldSnapshot_window (interval n : Z) :
  0 < interval -> 0 <= n ->
  (exists k, n <= k < n + interval
             /\ forall e, shouldSnapshot interval k e = true)
  /\ (forall k e,
        Event.kind e = "PhaseStarted" \/ Event.kind e = "PhaseCompleted"
        \/ Event.kind e = "ConvergenceReached" ->
        shouldSnapshot interval k e = true).
Proof.
  intros Hi Hn. split.
  - exists (((n + interval - 1) / interval) * interval).
    pose proof (Z.div_mod (n + interval - 1) interval ltac:(lia)) as Hdm.
    pose proof (Z.mod_pos_bound (n + interval - 1) interval Hi) as Hb.
    split; [nia |].
    intros e. unfold shouldSnapshot, remIsZero.
    destruct (interval =? 0) eqn:E; [apply Z.eqb_eq in E; lia |].
    rewrite Z.rem_mul by lia. reflexivity.
  - intros k e H. unfold shouldSnapshot.
    destruct (remIsZero k interval); [reflexivity |].
    destruct H as [-> | [-> | ->]]; reflexivity.
Qed.

Lemma shouldSnapshot_window_witness :
  exists k, 101 <= k < 101 + 100
            /\ forall e, shouldSnapshot 100 k e = true.
Proof.
  apply (shouldSnapshot_window 100 101); lia.
Defined.

(* ------------------------------------------------------------------ *)
(** * The log buffer *)

Lemma tl_skipn_snoc {A : Type} (k : nat) (l : list A) (a : A) :
  (k < length l)%nat ->
  tl (skipn k l ++ [a]) = skipn (S k) (l ++ [a]).
Proof.
  revert k. induction l as [| x l IH]; intros k Hk; [cbn in Hk; lia |].
  destruct k as [| k].
  - reflexivity.
  - cbn [skipn app]. cbn [length] in Hk.
    rewrite IH by lia. reflexivity.
Qed.

(** X30. The log buffer holds the last 1000 records and no more: after any
    sequence of [log] calls on a fresh adapter it is that sequence without
    its first [n - 1000] records, so [errorCount] counts the errors among
    the last 1000 log calls only. *)
Theorem keepLog_last_1000 (records : list LogRecord.t) :
  fold_left keepLog records [] = skipn (length records - 1000) records
  /\ (length (fold_left keepLog records []) <= 1000)%nat
  /\ errorCount (fold_left keepLog records [])
     = errorCount (skipn (length records - 1000) records).
Proof.
  assert (H : fold_left keepLog records []
              = skipn (length records - 1000) records).
  { induction records as [| r rs IH] using rev_ind; [reflexivity |].
    rewrite fold_left_app. cbn [fold_left]. rewrite IH.
    unfold keepLog. cbv zeta.
    rewrite !length_app, length_skipn. cbn [length].
    destruct (1000 <? _) eqn:E.
    - apply Z.ltb_lt in E.
      rewrite tl_skipn_snoc by lia. f_equal. lia.
    - apply Z.ltb_ge in E.
      replace (length rs - 1000)%nat with 0%nat by lia.
      replace (length rs + 1 - 1000)%nat with 0%nat by lia.
      reflexivity. }
  rewrite H. repeat split.
  rewrite length_skipn. lia.
Qed.
